(** * The runner build pipeline of [src/commands/build.ts]

    A shallow embedding of the [build] command: entry-point discovery,
    bundling, catalog generation and the scratch-workspace discipline
    around them.  The file system is a finite map from paths to nodes,
    effects are threaded through a state-and-exception monad, and the
    libraries the command calls into (esbuild, typescript, the emulator,
    fs-extra, the HTML generator) are the fields of a [Host] class. *)

From Stdlib Require Import Ascii String ZArith.
From stdpp Require Import gmap strings list fin_maps pretty.

Set Warnings "-register-all".

Open Scope string_scope.
Open Scope list_scope.
Open Scope Z_scope.

(** ** Paths ([node:path]) *)

Module Path.

(** An absolute path, as its segments below the root. *)
Definition path := list string.

(** The segments of a string between its ["/"] separators. *)
Fixpoint segments_go (cur s : string) : list string :=
  match s with
  | EmptyString => [cur]
  | String c s' =>
      if Ascii.eqb c "/"%char then cur :: segments_go "" s'
      else segments_go (cur +:+ String c "") s'
  end.

Definition segments (s : string) : list string := segments_go "" s.

(** One step of [path.normalize]: empty and ["."] segments vanish,
    [".."] drops the last segment (and stays at the root). *)
Definition push_segment (acc : path) (seg : string) : path :=
  if decide (seg = "" ∨ seg = ".") then acc
  else if decide (seg = "..") then removelast acc
  else acc ++ [seg].

(** [path.join(base, rel)] for an absolute, normalised [base]. *)
Definition join (base : path) (rel : string) : path :=
  foldl push_segment base (segments rel).

(** [q] is [p] itself or lies below it. *)
Definition below (p q : path) : Prop := p `prefix_of` q.

(** [q] lies strictly below [p]. *)
Definition sbelow (p q : path) : Prop := p `prefix_of` q ∧ p ≠ q.

(** All the prefixes of a path, the root first. *)
Fixpoint prefixes (p : path) : list path :=
  [] :: match p with
        | [] => []
        | s :: p' => (s ::.) <$> prefixes p'
        end.

(** The single segment that leads from [p] to its child [q], if [q] is
    a child of [p]. *)
Fixpoint child_name (p q : path) : option string :=
  match p, q with
  | [], [n] => Some n
  | s :: p', t :: q' => if decide (s = t) then child_name p' q' else None
  | _, _ => None
  end.

End Path.

Export Path.

(** ** JavaScript values *)

Module Js.

Inductive jsval :=
| JUndefined
| JNull
| JBool (b : bool)
| JNum (z : Z)
| JStr (s : string)
| JArr (l : list jsval)
| JObj (o : list (string * jsval)).

(** An object: its own enumerable properties, in insertion order. *)
Definition obj := list (string * jsval).

Fixpoint obj_get (o : obj) (k : string) : jsval :=
  match o with
  | [] => JUndefined
  | (k', v) :: o' => if decide (k' = k) then v else obj_get o' k
  end.

(** [o[k] = v]: an existing key keeps its position. *)
Fixpoint obj_set (o : obj) (k : string) (v : jsval) : obj :=
  match o with
  | [] => [(k, v)]
  | (k', v') :: o' =>
      if decide (k' = k) then (k, v) :: o' else (k', v') :: obj_set o' k v
  end.

(** ToBoolean. *)
Definition truthy (v : jsval) : bool :=
  match v with
  | JUndefined | JNull => false
  | JBool b => b
  | JNum z => negb (z =? 0)
  | JStr s => negb (String.eqb s "")
  | JArr _ | JObj _ => true
  end.

(** ToString, as string concatenation applies it.  Numbers are the
    integers JavaScript prints in plain decimal digits. *)
Fixpoint to_string (v : jsval) : string :=
  match v with
  | JUndefined => "undefined"
  | JNull => "null"
  | JBool true => "true"
  | JBool false => "false"
  | JNum z => pretty z
  | JStr s => s
  | JArr l =>
      String.concat ","
        (map (fun x => match x with
                       | JUndefined | JNull => ""
                       | _ => to_string x
                       end) l)
  | JObj _ => "[object Object]"
  end.

(** [String.prototype.includes]. *)
Fixpoint includes (hay needle : string) : bool :=
  String.prefix needle hay
  || match hay with
     | EmptyString => false
     | String _ hay' => includes hay' needle
     end.

End Js.

Export Js.

(** ** The file system ([node:fs], [Utils]) *)

Module Fs.

Inductive node :=
| File (content : string)
| Dir.

#[global] Instance node_eq_dec : EqDecision node.
Proof. solve_decision. Defined.

Abbreviation files := (gmap path node).

(** What a call returns or throws.  What is thrown is an [Error]
    object, kept as its [message]; a collaborator that throws a value
    without one ([throw null]) is not covered. *)
Inductive result (A : Type) :=
| Ok (a : A)
| Throw (msg : string).
Arguments Ok {A} a.
Arguments Throw {A} msg.

#[global] Instance result_ret : MRet result := λ A a, Ok a.

#[global] Instance result_bind : MBind result := λ A B f r,
  match r with
  | Ok a => f a
  | Throw e => Throw e
  end.

Definition is_dir (fs : files) (p : path) : bool :=
  bool_decide (fs !! p = Some Dir).

Definition is_file (fs : files) (p : path) : bool :=
  match fs !! p with Some (File _) => true | _ => false end.

(** Modelled from the spec: [Utils.deleteFolderRecursive], which lives
    in [src/utils/utils.ts].  It removes the directory and everything
    below it, and is a no-op when the directory is absent. *)
Definition deleteFolderRecursive (p : path) (fs : files) : files :=
  filter (λ kv, ¬ below p kv.1) fs.

(** [fs.mkdir(p, { recursive: true })]: creates [p] and every missing
    ancestor; throws when a file is in the way. *)
Definition mkdir (p : path) (fs : files) : result files :=
  if existsb (is_file fs) (prefixes p) then
    Throw "EEXIST: file already exists, mkdir"
  else Ok (foldr (λ q m, <[q := Dir]> m) fs (prefixes p)).

(** [fs.stat(p)] rejects when nothing is at [p]. *)
Definition stat (p : path) (fs : files) : result node :=
  match fs !! p with
  | Some n => Ok n
  | None => Throw "ENOENT: no such file or directory, stat"
  end.

(** [fsExtra.existsSync(p)]. *)
Definition existsSync (p : path) (fs : files) : bool :=
  bool_decide (is_Some (fs !! p)).

(** [fs.readFile(p, { encoding: 'utf8' })]. *)
Definition readFile (p : path) (fs : files) : result string :=
  match fs !! p with
  | Some (File c) => Ok c
  | Some Dir => Throw "EISDIR: illegal operation on a directory, read"
  | None => Throw "ENOENT: no such file or directory, open"
  end.

(** [fs.readdir(p)]: the names of the children of a directory. *)
Definition readdir (p : path) (fs : files) : result (list string) :=
  match fs !! p with
  | Some Dir => Ok (omap (λ kv, child_name p kv.1) (map_to_list fs))
  | Some (File _) => Throw "ENOTDIR: not a directory, scandir"
  | None => Throw "ENOENT: no such file or directory, scandir"
  end.

(** Writing a file at [p] needs the parent directory, and no directory
    at [p] itself. *)
Definition put_file (p : path) (c : string) (fs : files) : result files :=
  if negb (is_dir fs (removelast p)) then
    Throw "ENOENT: no such file or directory, open"
  else if is_dir fs p then
    Throw "EISDIR: illegal operation on a directory, open"
  else Ok (<[p := File c]> fs).

(** [fs.copyFile(src, dest)]. *)
Definition copyFile (src dest : path) (fs : files) : result files :=
  match fs !! src with
  | Some (File c) => put_file dest c fs
  | Some Dir => Throw "EISDIR: illegal operation on a directory, copyfile"
  | None => Throw "ENOENT: no such file or directory, copyfile"
  end.

(** [fs.writeFile(p, data)]. *)
Definition writeFile (p : path) (data : string) (fs : files)
  : result files :=
  put_file p data fs.

(** Two disks that differ at most strictly below [p]. *)
Definition same_except_below (p : path) (fs fs' : files) : Prop :=
  ∀ q, ¬ sbelow p q → fs !! q = fs' !! q.

End Fs.

Export Fs.

(** ** Effects: the process state and the exception monad *)

Module Eff.

(** What a run can observe and change: the disk, how often the clock
    and the UUID generator were read, and the lines [build.ts] itself
    writes with [console.info] and [console.error]. *)
Record world := World {
  w_files : files;
  w_ticks : nat;
  w_uuids : nat;
  w_console : list string;
}.

Definition M (A : Type) : Type := world → result A * world.

#[global] Instance M_ret : MRet M := λ A a w, (Ok a, w).

#[global] Instance M_bind : MBind M := λ A B f m w,
  match m w with
  | (Ok a, w1) => f a w1
  | (Throw e, w1) => (Throw e, w1)
  end.

Definition throw {A} (e : string) : M A := λ w, (Throw e, w).

(** The call threw. *)
Definition throws {A} (r : result A) : Prop :=
  match r with Throw _ => True | Ok _ => False end.

Definition lift_result {A} (r : result A) : M A := λ w, (r, w).

(** [try { m } catch (err) { h err.message }]. *)
Definition try_catch {A} (m : M A) (h : string → M A) : M A := λ w,
  match m w with
  | (Ok a, w1) => (Ok a, w1)
  | (Throw e, w1) => h e w1
  end.

(** [try { m } finally { f }]: [f] runs on every path; what [m]
    returned or threw stands unless [f] itself throws. *)
Definition try_finally {A} (m : M A) (f : M unit) : M A := λ w,
  match m w with
  | (r, w1) =>
      match f w1 with
      | (Ok _, w2) => (r, w2)
      | (Throw e, w2) => (Throw e, w2)
      end
  end.

(** [await Promise.all(tasks)], the tasks given in the order in which
    they settle, each run to its end: every task runs whether or not
    another one rejected, and the rejection that settles first is the
    one thrown. *)
Fixpoint promise_all {A} (tasks : list (M A)) : M (list A) :=
  match tasks with
  | [] => mret []
  | t :: tasks' => λ w,
      match t w with
      | (Ok a, w1) =>
          match promise_all tasks' w1 with
          | (Ok l, w2) => (Ok (a :: l), w2)
          | (Throw e, w2) => (Throw e, w2)
          end
      | (Throw e, w1) => (Throw e, (promise_all tasks' w1).2)
      end
  end.

(** [xs.map(async x => { start; await ...; finish })] for a callback
    that only reads the disk ahead of its [await]: [map] runs every
    callback up to its [await], in array order and whether or not an
    earlier one threw.  These are the callbacks that got that far, each
    with what is left of it. *)
Fixpoint awaited {X Y A : Type} (start : X → files → result Y)
    (finish : X → Y → M A) (fs : files) (xs : list X) : list (M A) :=
  match xs with
  | [] => []
  | x :: xs' =>
      match start x fs with
      | Ok y => finish x y :: awaited start finish fs xs'
      | Throw _ => awaited start finish fs xs'
      end
  end.

(** The error of the first callback, in array order, that threw ahead
    of its [await]: its promise is rejected when [map] returns, before
    the promise of any awaited operation settles. *)
Fixpoint rejected_early {X Y : Type} (start : X → files → result Y)
    (fs : files) (xs : list X) : option string :=
  match xs with
  | [] => None
  | x :: xs' =>
      match start x fs with
      | Throw e => Some e
      | Ok _ => rejected_early start fs xs'
      end
  end.

(** [await Promise.all(xs.map(async x => ...))] for such a callback.  A
    callback that threw ahead of its [await] is what [Promise.all]
    rejects with.  The operations the others have started are taken to
    complete once every callback has been started, here in array
    order, and before the rejection is handled. *)
Definition promise_all_map {X Y A : Type} (start : X → files → result Y)
    (finish : X → Y → M A) (xs : list X) : M (list A) := λ w,
  let settled := promise_all (awaited start finish (w_files w) xs) w in
  match rejected_early start (w_files w) xs with
  | Some e => (Throw e, settled.2)
  | None => settled
  end.

Definition with_files (w : world) (fs : files) : world :=
  World fs (w_ticks w) (w_uuids w) (w_console w).

(** A read-only file-system call. *)
Definition fs_read {A} (f : files → result A) : M A := λ w,
  (f (w_files w), w).

(** A file-system call that changes the disk when it succeeds. *)
Definition fs_update (f : files → result files) : M unit := λ w,
  match f (w_files w) with
  | Ok fs' => (Ok (), with_files w fs')
  | Throw e => (Throw e, w)
  end.

Definition fs_delete (p : path) : M unit := λ w,
  (Ok (), with_files w (deleteFolderRecursive p (w_files w))).

(** [console.info] and [console.error]. *)
Definition console_log (line : string) : M unit := λ w,
  (Ok (), World (w_files w) (w_ticks w) (w_uuids w) (w_console w ++ [line])).

End Eff.

Export Eff.

(** ** The libraries the command calls into *)

(** An entry point handed to the bundler: [{ in, out }]. *)
Record entry := Entry {
  e_in : path;
  e_out : string;
}.

(** The options [bundle] hands to [esbuild.build]; the plugin, a
    function, is left out. *)
Record BuildOptions := {
  entryPoints : list entry;
  mainFields : list string;
  bundle_ : bool;
  minify : bool;
  outdir : path;
  external : list string;
  format : string;
  globalName : string;
  footer_js : string;
}.

(** The command-line options of [build]. *)
Record config := Config {
  noList : jsval;
  folder : option string;
}.

(** Everything [build.ts] imports and does not define: the process
    environment and the external collaborators.  A collaborator that
    touches the disk is a computation in [M]; one that only reads it is
    a function of the files. *)
Class Host := {
  Module_ : Type;
  Target : Type;
  Runner : Type;
  (** [process.cwd()] *)
  cwd : path;
  (** the successive readings of [Date.now()] *)
  clock : nat → Z;
  (** the successive results of [crypto.randomUUID()] *)
  uuid : nat → string;
  (** [typescript.readConfigFile] followed by
      [typescript.parseJsonConfigFileContent(...).fileNames] *)
  tsconfig_fileNames : files → result (list path);
  (** the order in which the reads of these files complete, which is
      the operating system's to choose *)
  read_order : list path → list path;
  read_order_settles : ∀ fileNames, read_order fileNames ≡ₚ fileNames;
  (** [esbuild.build(options)] *)
  esbuild_build : BuildOptions → M unit;
  (** [require(targetFile)] of a bundled artifact; loading, emulating
      and evaluating it are taken to read the disk and do no more *)
  require_module : path → files → result Module_;
  (** [sttPackage.Target] *)
  module_Target : Module_ → Target;
  (** [emulate(target)] of [@suwatte/emulator] *)
  emulate : Target → result Runner;
  (** [runner.info] *)
  runner_info : Runner → obj;
  (** [evaluateEnvironment(runner)] of [src/utils/evaluateEnvironment.ts] *)
  evaluateEnvironment : Runner → result jsval;
  (** [require(pathToPkgJS)] of a JSON file *)
  require_json : path → files → result jsval;
  JSON_stringify : jsval → string;
  (** [createHash("sha256").update(s).digest("hex")] *)
  sha256_hex : string → string;
  (** [fsExtra.copy(src, dest, { overwrite: true })] *)
  fsExtra_copy : path → path → M unit;
  (** [generateHTML(folder)] of [src/utils/generateHTML.ts] *)
  generateHTML : option string → M unit;
}.

(** ** [src/commands/build.ts] *)

Definition TEMP_DIR : string := "__temp__".
Definition OUT_DIR : string := "stt".
Definition EXCLUDED_MODULES : list string :=
  ["cheerio"; "lodash"; "he"; "fs"; "axios"; "crypto-js"].
Definition MARKER : string := "class Target".
Definition FOOTER : string :=
  "this.STTPackage = _STTPackage; if (typeof exports === 'object' && typeof module !== 'undefined') {module.exports.Target = this.STTPackage.Target;}".

(** How the [try] block of [build] ends when it does not throw: it runs
    to its end, or leaves the function through [return]. *)
Inductive completion := Normal | Return.

(** How a call of [build] ends: its promise resolves, the process is
    ended by [process.exit], or its promise rejects. *)
Inductive outcome :=
| Returned
| Exited (code : Z)
| Rejected (msg : string).

Section Build.

Context `{H : Host}.

Definition Date_now : M Z := λ w,
  (Ok (clock (w_ticks w)),
   World (w_files w) (S (w_ticks w)) (w_uuids w) (w_console w)).

Definition randomUUID : M string := λ w,
  (Ok (uuid (w_uuids w)),
   World (w_files w) (w_ticks w) (S (w_uuids w)) (w_console w)).

(** [obj.key] on a value: a [TypeError] on [undefined] and [null],
    with the message V8 gives it. *)
Definition get_prop (v : jsval) (k : string) : result jsval :=
  match v with
  | JUndefined =>
      Throw ("Cannot read properties of undefined (reading '" +:+ k +:+ "')")
  | JNull =>
      Throw ("Cannot read properties of null (reading '" +:+ k +:+ "')")
  | JObj o => Ok (obj_get o k)
  | _ => Ok JUndefined
  end.

(** [v?.key]. *)
Definition get_prop_opt (v : jsval) (k : string) : jsval :=
  match v with
  | JObj o => obj_get o k
  | _ => JUndefined
  end.

(** One task of the [map] in [findSourceEntryPoints], from the moment
    its read completes: the entry it pushes onto [validFiles], if
    any. *)
Definition scanFile (fileName : path) : M (option entry) :=
  content ← fs_read (readFile fileName);
  if includes content MARKER then
    out ← randomUUID;
    mret (Some (Entry fileName out))
  else mret None.

(** The callbacks all start with [await fs.readFile]; each goes on
    when its read completes, so [validFiles] is filled, and the
    identifiers are drawn, in the order the reads complete. *)
Definition findSourceEntryPoints : M (list entry) :=
  fileNames ← fs_read tsconfig_fileNames;
  pushed ← promise_all (scanFile <$> read_order fileNames);
  mret (omap id pushed).

Definition bundle (outDir : path) : M unit :=
  targetFiles ← findSourceEntryPoints;
  esbuild_build {|
    entryPoints := targetFiles;
    mainFields := ["main"; "module"; "browser"];
    bundle_ := true;
    minify := true;
    outdir := outDir;
    external := EXCLUDED_MODULES;
    format := "iife";
    globalName := "_STTPackage";
    footer_js := FOOTER;
  |}.

(** The integrity hash of a catalog entry. *)
Definition entry_hash (info : obj) (timestamp : Z) : string :=
  sha256_hex (JSON_stringify (JObj info) +:+ pretty timestamp).

(** [{ ...runner.info, path, environment, hash }]. *)
Definition targetObject (info : obj) (environment : jsval) (timestamp : Z)
  : obj :=
  obj_set
    (obj_set (obj_set info "path" (obj_get info "name"))
       "environment" environment)
    "hash" (JStr (entry_hash info timestamp)).

(** The callback of the [map] in [generateList] up to its [await]:
    the artifact is loaded and its entry built.  [targetExists] is the
    promise [fs.stat] returns, which is never awaited: an object, and
    so truthy.  [None] stands for the early [return]. *)
Definition loadRunner (runnerDir : path) (timestamp : Z)
    (folderName : string) (fs : files) : result (option obj) :=
  let targetFile := join runnerDir folderName in
  let targetExists := true in
  if negb targetExists then Ok None
  else
    sttPackage ← require_module targetFile fs;
    let target := module_Target sttPackage in
    runner ← emulate target;
    environment ← evaluateEnvironment runner;
    Ok (Some (targetObject (runner_info runner) environment timestamp)).

(** The rest of the callback: the awaited copy, and the entry
    returned. *)
Definition finishRunner (runnerDir outRunnersDir : path)
    (folderName : string) (loaded : option obj) : M jsval :=
  match loaded with
  | None => mret JUndefined
  | Some object =>
      fs_update
        (copyFile (join runnerDir folderName)
           (join outRunnersDir
              (to_string (obj_get object "path") +:+ ".stt")));;
      mret (JObj object)
  end.

(** The callback from start to end, as one task. *)
Definition listRunner (runnerDir outRunnersDir : path) (timestamp : Z)
    (folderName : string) : M jsval :=
  let targetFile := join runnerDir folderName in
  let targetExists := true in
  if negb targetExists then mret JUndefined
  else
    sttPackage ← fs_read (require_module targetFile);
    let target := module_Target sttPackage in
    runner ← lift_result (emulate target);
    environment ← lift_result (evaluateEnvironment runner);
    let object := targetObject (runner_info runner) environment timestamp in
    fs_update
      (copyFile targetFile
         (join outRunnersDir
            (to_string (obj_get object "path") +:+ ".stt")));;
    mret (JObj object).

Definition generateList (runnerDir outDir : path) : M unit :=
  timestamp ← Date_now;
  let outRunnersDir := join outDir "runners" in
  fs_update (mkdir outRunnersDir);;
  names ← fs_read (readdir runnerDir);
  runners ← promise_all_map (loadRunner runnerDir timestamp)
              (finishRunner runnerDir outRunnersDir) names;
  let pathToPkgJS := join cwd "package.json" in
  fs_read (stat pathToPkgJS);;
  pkgJSON ← fs_read (require_json pathToPkgJS);
  stt ← lift_result (get_prop pkgJSON "stt");
  let listName :=
    if truthy (get_prop_opt stt "listName") then get_prop_opt stt "listName"
    else JStr "Runner List" in
  let list := JObj [("runners", JArr runners); ("listName", listName)] in
  let json := JSON_stringify list in
  let outPath := join outDir "runners.json" in
  fs_update (writeFile outPath json).

Definition tempDir : path := join cwd TEMP_DIR.

Definition outDir (config : config) : path :=
  join cwd (default OUT_DIR (folder config)).

Definition runnerDir : path := join tempDir "runners".

(** The statements of [build] ahead of its [try] block: the scratch
    workspace is emptied and created. *)
Definition build_acquire : M unit :=
  console_log "Building...";;
  fs_delete tempDir;;
  fs_update (mkdir tempDir).

(** "Clear Out Dir & Re-add directories". *)
Definition clear_output (config : config) : M unit :=
  fs_delete (outDir config);;
  fs_update (mkdir (outDir config)).

(** "Copy Assets". *)
Definition copy_assets (config : config) : M unit :=
  let assetsDirectory := join cwd "assets" in
  exists_ ← fs_read (λ fs, Ok (existsSync assetsDirectory fs));
  if exists_ : bool then
    fsExtra_copy assetsDirectory (join (outDir config) "assets")
  else mret ().

(** "HTML": the inner [try]/[catch]. *)
Definition prepare_html (config : config) : M unit :=
  try_catch (generateHTML (folder config))
    (λ message,
       console_log "Failed to prepare HTML";; console_log message).

(** The body of the [try] block of [build]. *)
Definition build_try (config : config) : M completion :=
  clear_output config;;
  bundle runnerDir;;
  if truthy (noList config) then mret Return
  else
    generateList runnerDir (outDir config);;
    fs_delete tempDir;;
    copy_assets config;;
    prepare_html config;;
    mret Normal.

(** The [catch] block of [build]; the flag is the local [failed]. *)
Definition build_catch (message : string) : M (completion * bool) :=
  console_log "Failed to build runners";;
  console_log message;;
  mret (Normal, true).

(** The [finally] block of [build]. *)
Definition build_finally : M unit :=
  present ← fs_read (λ fs, Ok (match stat tempDir fs with
                               | Ok _ => true
                               | Throw _ => false
                               end));
  if present : bool then fs_delete tempDir else mret ().

(** The [try]/[catch]/[finally] statement of [build]. *)
Definition build_guarded (config : config) : M (completion * bool) :=
  try_finally
    (try_catch (c ← build_try config; mret (c, false)) build_catch)
    build_finally.

(** [build(config)].  The timers of [Utils.time] are left out, and
    with them what they print, in the [try] block and, for
    [execTime.end()], after the [finally] block: [w_console] has the
    lines of [build.ts] itself. *)
Definition build (config : config) : world → outcome * world := λ w,
  match build_acquire w with
  | (Throw e, w1) => (Rejected e, w1)
  | (Ok _, w1) =>
      match build_guarded config w1 with
      | (Throw e, w2) => (Rejected e, w2)
      | (Ok (Return, _), w2) => (Returned, w2)
      | (Ok (Normal, failed), w2) =>
          if failed : bool then (Exited (-1), w2) else (Returned, w2)
      end
  end.

(** *** Vocabulary for the statements below *)

(** A file is taken as an entry point when its text can be read and
    has the marker in it. *)
Definition qualifies (fs : files) (f : path) : bool :=
  match readFile f fs with
  | Ok text => includes text MARKER
  | Throw _ => false
  end.

(** The [try] block from its start to the release of the scratch
    workspace, on the path that builds the catalog. *)
Definition catalog_steps (config : config) : M unit :=
  clear_output config;;
  bundle runnerDir;;
  generateList runnerDir (outDir config);;
  fs_delete tempDir.

(** The states a run goes through: when the [try] block is entered,
    when the output directory has been cleared, when the bundler is
    done, and when the catalog is built and the scratch workspace
    released. *)
Definition acquired (w : world) : world := (build_acquire w).2.

Definition cleared (config : config) (w : world) : world :=
  (clear_output config (acquired w)).2.

Definition bundled (config : config) (w : world) : world :=
  (bundle runnerDir (cleared config w)).2.

Definition released (config : config) (w : world) : world :=
  (catalog_steps config (acquired w)).2.

(** [generateList] up to its [readdir]: the artifacts it will list. *)
Definition generateList_names (runnerDir outDir : path)
  : M (list string) :=
  Date_now;;
  fs_update (mkdir (join outDir "runners"));;
  fs_read (readdir runnerDir).

(** [generateList] up to the end of its [Promise.all]: the epoch it
    read and the entries the tasks returned. *)
Definition generateList_tasks (runnerDir outDir : path)
  : M (Z * list jsval) :=
  timestamp ← Date_now;
  let outRunnersDir := join outDir "runners" in
  fs_update (mkdir outRunnersDir);;
  names ← fs_read (readdir runnerDir);
  runners ← promise_all_map (loadRunner runnerDir timestamp)
              (finishRunner runnerDir outRunnersDir) names;
  mret (timestamp, runners).

(** What [bundle] relies on in the bundling engine: with the
    directories that lead to [outdir] in place, a call changes nothing
    on the disk but at [outdir] and below. *)
Definition writes_below_outdir (engine : BuildOptions → M unit) : Prop :=
  ∀ (options : BuildOptions) (w : world),
    (∀ q : path, q `prefix_of` outdir options → q ≠ outdir options →
                 w_files w !! q = Some Dir) →
    ∀ q : path, ¬ below (outdir options) q →
                w_files (engine options w).2 !! q = w_files w !! q.

(** [generateList] from there on: the list name and the manifest. *)
Definition generateList_manifest (outDir : path) (runners : list jsval)
  : M unit :=
  let pathToPkgJS := join cwd "package.json" in
  fs_read (stat pathToPkgJS);;
  pkgJSON ← fs_read (require_json pathToPkgJS);
  stt ← lift_result (get_prop pkgJSON "stt");
  let listName :=
    if truthy (get_prop_opt stt "listName") then get_prop_opt stt "listName"
    else JStr "Runner List" in
  let list := JObj [("runners", JArr runners); ("listName", listName)] in
  fs_update (writeFile (join outDir "runners.json") (JSON_stringify list)).

End Build.

(** ** A small project to run the command on

    Test doubles for the collaborators, simple enough to evaluate: the
    bundler copies each source to [<out>.js], a bundle declares its name
    after ["name="], and the hash stand-in is injective. *)

Module Demo.

Definition dq : string := String (Ascii.ascii_of_nat 34) "".

Fixpoint json (v : jsval) : string :=
  match v with
  | JUndefined | JNull => "null"
  | JBool true => "true"
  | JBool false => "false"
  | JNum z => pretty z
  | JStr s => dq +:+ s +:+ dq
  | JArr l => "[" +:+ String.concat "," (map json l) +:+ "]"
  | JObj o =>
      "{" +:+
      String.concat ","
        ((fix props (o : list (string * jsval)) : list string :=
            match o with
            | [] => []
            | (_, JUndefined) :: o' => props o'
            | (k, v) :: o' => (dq +:+ k +:+ dq +:+ ":" +:+ json v) :: props o'
            end) o)
      +:+ "}"
  end.

Definition project : path := ["proj"].

(** The part of [q] below [p], when [q] is at or below [p]. *)
Fixpoint strip (p q : path) : option path :=
  match p, q with
  | [], _ => Some q
  | s :: p', t :: q' => if decide (s = t) then strip p' q' else None
  | _ :: _, [] => None
  end.

Definition sources (fs : files) : list path :=
  omap (λ kv, match kv.2, strip (project ++ ["src"]) kv.1 with
              | File _, Some (_ :: _) => Some kv.1
              | _, _ => None
              end) (map_to_list fs).

(** The configuration ["{}"] resolves to the sources on disk, ["{"]
    cannot be parsed, and any other text names one more file of
    [src], listed explicitly. *)
Definition parse_tsconfig (fs : files) : result (list path) :=
  match fs !! (project ++ ["tsconfig.json"]) with
  | Some (File "{}") => Ok (sources fs)
  | Some (File "{") | Some Dir | None => Throw "tsconfig.json: cannot parse"
  | Some (File name) => Ok (sources fs ++ [project ++ ["src"; name]])
  end.

(** Bundles the entries one after the other; a source that contains
    ["syntax error"] fails the build after the earlier ones are
    written. *)
Fixpoint bundle_all (entries : list entry) (outdir : path) : M unit :=
  match entries with
  | [] => mret ()
  | e :: entries' =>
      content ← fs_read (readFile (e_in e));
      if includes content "syntax error" then throw "Build failed with 1 error"
      else
        fs_update (writeFile (outdir ++ [e_out e +:+ ".js"]) content);;
        bundle_all entries' outdir
  end.

Definition run_esbuild (options : BuildOptions) : M unit :=
  fs_update (mkdir (outdir options));;
  bundle_all (entryPoints options) (outdir options).

Definition load (p : path) (fs : files) : result string :=
  match readFile p fs with
  | Ok c => if includes c "throw" then Throw "artifact failed to load"
            else Ok c
  | Throw e => Throw e
  end.

(** The text that follows the first occurrence of [key], if any. *)
Fixpoint after (key s : string) : option string :=
  if String.prefix key s then
    Some (String.substring (String.length key)
            (String.length s - String.length key) s)
  else match s with
       | EmptyString => None
       | String _ s' => after key s'
       end.

(** The metadata a bundle declares: a version, and the name that
    follows ["name="] when the text has one. *)
Definition info_of (content : string) : obj :=
  match after "name=" content with
  | Some name => [("name", JStr name); ("version", JNum 1)]
  | None => [("version", JNum 1)]
  end.

Definition read_json (p : path) (fs : files) : result jsval :=
  match readFile p fs with
  | Ok "{}" => Ok (JObj [])
  | Ok c => Ok (JObj [("stt", JObj [("listName", JStr c)])])
  | Throw e => Throw e
  end.

(** Copies the tree at [src] to [dest]; like fs-extra it refuses to
    copy a directory into itself. *)
Definition copy_tree (src dest : path) : M unit :=
  if decide (below src dest) then
    throw "Cannot copy to a subdirectory of itself"
  else λ w,
    (Ok (),
     with_files w
       (foldr (λ kv m, match strip src kv.1 with
                       | Some r => <[dest ++ r := kv.2]> m
                       | None => m
                       end)
          (w_files w) (map_to_list (w_files w)))).

(** Renders the page from [proj/page.html] into the output folder. *)
Definition render_html (folder : option string) : M unit :=
  template ← fs_read (readFile (project ++ ["page.html"]));
  fs_update
    (writeFile (join project (default OUT_DIR folder) ++ ["index.html"])
       template).

Definition host : Host := {|
  Module_ := string;
  Target := string;
  Runner := obj;
  cwd := project;
  clock := λ n, 1700000000000 + Z.of_nat n;
  uuid := λ n, "u" +:+ pretty n;
  tsconfig_fileNames := parse_tsconfig;
  read_order := id;
  read_order_settles := λ fileNames, Permutation_refl fileNames;
  esbuild_build := run_esbuild;
  require_module := load;
  module_Target := id;
  emulate := λ t, Ok (info_of t);
  runner_info := id;
  evaluateEnvironment := λ _, Ok (JStr "any");
  require_json := read_json;
  JSON_stringify := json;
  sha256_hex := λ s, "sha256:" +:+ s;
  fsExtra_copy := copy_tree;
  generateHTML := render_html;
|}.

Definition disk (l : list (path * node)) : files := list_to_map l.

Definition fresh (fs : files) : world := World fs 0 0 [].

(** A project with two runners, a helper module, a page template and
    a stray file left in the output folder by an earlier run. *)
Definition base_files : list (path * node) :=
  [ ([], Dir);
    (["proj"], Dir);
    (["proj"; "tsconfig.json"], File "{}");
    (["proj"; "package.json"], File "{}");
    (["proj"; "page.html"], File "<html/>");
    (["proj"; "src"], Dir);
    (["proj"; "src"; "a.ts"], File "class Target name=Alpha");
    (["proj"; "src"; "b.ts"], File "class Target name=Beta");
    (["proj"; "src"; "util.ts"], File "export const one = 1");
    (["proj"; "stt"], Dir);
    (["proj"; "stt"; "stray.txt"], File "left over") ].

Definition good : world := fresh (disk base_files).

Definition stray : path := ["proj"; "stt"; "stray.txt"].

(** The project with some files added or replaced. *)
Definition plus (extra : list (path * node)) : world :=
  fresh (disk (extra ++ base_files)).

Definition defaults : config := Config JUndefined None.

Definition bundle_only : config := Config (JBool true) None.

(** A third runner that the bundler rejects. *)
Definition broken_bundle : world :=
  plus [(["proj"; "src"; "c.ts"], File "class Target syntax error")].

(** A resolution configuration that cannot be parsed. *)
Definition bad_tsconfig : world :=
  plus [(["proj"; "tsconfig.json"], File "{")].

(** A configuration that lists a file which is not there. *)
Definition missing_source : world :=
  plus [(["proj"; "tsconfig.json"], File "gone.ts")].


(** A third file that has the marker in a comment only. *)
Definition commented : world :=
  plus [(["proj"; "src"; "c.ts"], File "// class Target")].

(** A third runner that declares no name. *)
Definition nameless : world :=
  plus [(["proj"; "src"; "c.ts"], File "class Target version=1")].

(** The project without its page template. *)
Definition no_template : world :=
  fresh (delete ["proj"; "page.html"] (disk base_files)).

(** The project with an assets directory, built into that very
    directory. *)
Definition with_assets : world :=
  plus [(["proj"; "assets"], Dir);
        (["proj"; "assets"; "logo.svg"], File "<svg/>")].

Definition into_assets : config := Config JUndefined (Some "assets").

(** The project without its [package.json]. *)
Definition no_package : world :=
  fresh (delete ["proj"; "package.json"] (disk base_files)).

(** The project with the scratch workspace of an interrupted run. *)
Definition stale_scratch : world :=
  plus [(["proj"; "__temp__"], Dir);
        (["proj"; "__temp__"; "old.js"], File "stale")].

(** A project whose [package.json] names its list. *)
Definition named_list : world :=
  plus [(["proj"; "package.json"], File "My Runners")].

End Demo.

(** * Properties *)

(** ** Paths and the file system *)

Section PathFacts.

Lemma elem_of_prefixes (q p : path) : q ∈ prefixes p ↔ q `prefix_of` p.
Proof.
  revert q. induction p as [|s p IH]; intros q; simpl.
  - rewrite list_elem_of_singleton. split; [intros ->; done|].
    apply prefix_nil_inv.
  - rewrite elem_of_cons, list_elem_of_fmap. split.
    + intros [->|(q' & -> & Hq')]; [apply prefix_nil|].
      apply prefix_cons, IH, Hq'.
    + destruct q as [|t q]; [by left|]. intros Hpre. right.
      exists q. pose proof (prefix_cons_inv_1 _ _ _ _ Hpre) as ->.
      split; [done|]. apply IH. by eapply prefix_cons_inv_2.
Qed.

Lemma below_refl (p : path) : below p p.
Proof. done. Qed.

Lemma below_trans (p q r : path) : below p q → below q r → below p r.
Proof. unfold below. by etrans. Qed.

Lemma sbelow_below (p q : path) : sbelow p q → below p q.
Proof. by intros [? _]. Qed.

Lemma sbelow_longer (p q : path) : sbelow p q → (length p < length q)%nat.
Proof.
  intros [[k ->] Hne]. rewrite length_app.
  destruct k; [by rewrite app_nil_r in Hne|simpl; lia].
Qed.

Lemma join_segment (base : path) :
  join base TEMP_DIR = base ++ [TEMP_DIR].
Proof. reflexivity. Qed.

Lemma prefix_snoc_inv (q p : path) (s : string) :
  q `prefix_of` p ++ [s] → q = p ++ [s] ∨ q `prefix_of` p.
Proof.
  intros [k Hk]. destruct k as [|x k _] using rev_ind.
  - left. by rewrite app_nil_r in Hk.
  - right. rewrite app_assoc in Hk. apply app_inj_tail in Hk as [-> _].
    by exists k.
Qed.

End PathFacts.

Section FsFacts.

Implicit Types (fs : files) (p q : path).

Lemma delete_lookup_below p fs q :
  below p q → deleteFolderRecursive p fs !! q = None.
Proof.
  intros Hb. unfold deleteFolderRecursive.
  apply map_lookup_filter_None. right. intros n _ Hn. by apply Hn.
Qed.

Lemma delete_lookup_other p fs q :
  ¬ below p q → deleteFolderRecursive p fs !! q = fs !! q.
Proof.
  intros Hb. unfold deleteFolderRecursive.
  destruct (fs !! q) as [n|] eqn:Hq.
  - by apply map_lookup_filter_Some.
  - apply map_lookup_filter_None. by left.
Qed.

Lemma delete_lookup p fs q :
  deleteFolderRecursive p fs !! q
  = if decide (below p q) then None else fs !! q.
Proof.
  case_decide; [by apply delete_lookup_below|by apply delete_lookup_other].
Qed.

Lemma mkdir_fold_lookup (l : list path) fs q :
  foldr (λ r m, <[r := Dir]> m) fs l !! q
  = if decide (q ∈ l) then Some Dir else fs !! q.
Proof.
  induction l as [|r l IH]; cbn [foldr].
  - case_decide as Hin; [by apply elem_of_nil in Hin|done].
  - destruct (decide (r = q)) as [Heq|Hne].
    + subst r. rewrite lookup_insert_eq.
      rewrite decide_True by (by left). done.
    + rewrite lookup_insert_ne by done. rewrite IH.
      destruct (decide (q ∈ l)) as [Hin|Hin].
      * rewrite decide_True by (by right). done.
      * rewrite decide_False; [done|].
        intros [->|?]%elem_of_cons; done.
Qed.

Lemma mkdir_Ok_lookup p fs fs' q :
  mkdir p fs = Ok fs' →
  fs' !! q = if decide (q `prefix_of` p) then Some Dir else fs !! q.
Proof.
  unfold mkdir. case_match; [done|]. intros [= <-].
  rewrite mkdir_fold_lookup.
  repeat case_decide; try done; exfalso;
    rename select (¬ _) into Hn; apply Hn; by apply elem_of_prefixes.
Qed.

Lemma mkdir_Ok_iff p fs :
  (∃ fs', mkdir p fs = Ok fs')
  ↔ ∀ q, q `prefix_of` p → is_file fs q = false.
Proof.
  unfold mkdir. split.
  - intros [fs' Hm] q Hq. destruct (existsb _ _) eqn:Hex; [done|].
    destruct (is_file fs q) eqn:Hf; [|done].
    assert (existsb (is_file fs) (prefixes p) = true) as Hc; [|congruence].
    apply existsb_exists. exists q. split; [|done].
    apply list_elem_of_In, elem_of_prefixes, Hq.
  - intros Hall. destruct (existsb _ _) eqn:Hex; [|by eexists].
    apply existsb_exists in Hex as (q & Hin & Hf).
    apply list_elem_of_In, elem_of_prefixes in Hin.
    rewrite Hall in Hf; done.
Qed.

Lemma put_file_Ok (p : path) (c : string) (fs fs' : files) :
  put_file p c fs = Ok fs' → fs' = <[p := File c]> fs.
Proof. unfold put_file. repeat case_match; try done. by intros [= <-]. Qed.

End FsFacts.

(** ** The monad *)

Section MonadFacts.

Context {A B : Type}.
Implicit Types (m : M A) (f : A → M B) (w : world).

Lemma bind_Ok m f w a w1 : m w = (Ok a, w1) → (m ≫= f) w = f a w1.
Proof. unfold mbind, M_bind. by intros ->. Qed.

Lemma bind_Throw m f w e w1 :
  m w = (Throw e, w1) → (m ≫= f) w = (Throw e, w1).
Proof. unfold mbind, M_bind. by intros ->. Qed.

Lemma bind_Ok_inv m f w b w2 :
  (m ≫= f) w = (Ok b, w2) →
  ∃ a w1, m w = (Ok a, w1) ∧ f a w1 = (Ok b, w2).
Proof.
  unfold mbind, M_bind. destruct (m w) as [[a|e] w1]; [|done].
  intros Hf. by exists a, w1.
Qed.

Lemma bind_Throw_inv m f w e w2 :
  (m ≫= f) w = (Throw e, w2) →
  m w = (Throw e, w2)
  ∨ ∃ a w1, m w = (Ok a, w1) ∧ f a w1 = (Throw e, w2).
Proof.
  unfold mbind, M_bind. destruct (m w) as [[a|e'] w1].
  - intros Hf. right. by exists a, w1.
  - intros [= -> ->]. by left.
Qed.

Lemma bind_same m m' f w w' : m w = m' w' → (m ≫= f) w = (m' ≫= f) w'.
Proof. unfold mbind, M_bind. by intros ->. Qed.

Lemma run_Ok m w a : (m w).1 = Ok a → m w = (Ok a, (m w).2).
Proof. destruct (m w) as [r w1]. simpl. by intros ->. Qed.

Lemma run_Throw m w e : (m w).1 = Throw e → m w = (Throw e, (m w).2).
Proof. destruct (m w) as [r w1]. simpl. by intros ->. Qed.

Lemma run_throws m w : throws (m w).1 → ∃ e, m w = (Throw e, (m w).2).
Proof. destruct (m w) as [[a|e] w1]; [done|]. by exists e. Qed.

End MonadFacts.

Section PromiseFacts.

Context {A : Type}.
Implicit Types (tasks : list (M A)) (w : world).

(** When the tasks all resolve there is one result per task. *)
Lemma promise_all_length tasks w l w' :
  promise_all tasks w = (Ok l, w') → length l = length tasks.
Proof.
  revert w l w'. induction tasks as [|t tasks IH]; intros w l w'; simpl.
  - by intros [= <- _].
  - destruct (t w) as [[a|e] w1]; [|done].
    destruct (promise_all tasks w1) as [[l'|e] w2] eqn:Hrest; [|done].
    intros [= <- _]. simpl. f_equal. by eapply IH.
Qed.

(** Every result is what its task returned in some state. *)
Lemma promise_all_Ok tasks w l w' :
  promise_all tasks w = (Ok l, w') →
  Forall2 (λ t a, ∃ w1 w2, t w1 = (Ok a, w2)) tasks l.
Proof.
  revert w l w'. induction tasks as [|t tasks IH]; intros w l w'; simpl.
  - intros [= <- _]. constructor.
  - destruct (t w) as [[a|e] w1] eqn:Ht; [|done].
    destruct (promise_all tasks w1) as [[l'|e] w2] eqn:Hrest; [|done].
    intros [= <- _]. constructor; [by eauto|by eapply IH].
Qed.

(** A task that rejects in whatever state it runs rejects the whole. *)
Lemma promise_all_rejects tasks w t :
  t ∈ tasks →
  (∀ w1, ∃ e w2, t w1 = (Throw e, w2)) →
  ∃ e w', promise_all tasks w = (Throw e, w').
Proof.
  intros Hin Hbad. revert w.
  induction tasks as [|t' tasks IH]; intros w; [by apply elem_of_nil in Hin|].
  simpl. apply elem_of_cons in Hin as [<-|Hin].
  - destruct (Hbad w) as (e & w2 & ->). by eauto.
  - destruct (t' w) as [[a|e] w1]; [|by eauto].
    destruct (IH Hin w1) as (e & w' & ->). by eauto.
Qed.

(** A rejection of the whole is the rejection of one of the tasks. *)
Lemma promise_all_Throw tasks w e w' :
  promise_all tasks w = (Throw e, w') →
  ∃ t w1 w2, t ∈ tasks ∧ t w1 = (Throw e, w2).
Proof.
  revert w. induction tasks as [|t tasks IH]; intros w; simpl; [done|].
  destruct (t w) as [[a|e1] w1] eqn:Ht.
  - destruct (promise_all tasks w1) as [[l'|e2] w2] eqn:Hrest; [done|].
    intros [= -> ->]. destruct (IH _ Hrest) as (t' & wa & wb & Hin & Ht').
    exists t', wa, wb. split; [by right|done].
  - intros [= -> _]. exists t, w, w1. split; [by left|done].
Qed.

(** Tasks that leave the clock alone leave it alone together. *)
Lemma promise_all_ticks tasks w :
  Forall (λ t, ∀ w1, w_ticks (t w1).2 = w_ticks w1) tasks →
  w_ticks (promise_all tasks w).2 = w_ticks w.
Proof.
  intros Hall. revert w.
  induction Hall as [|t tasks Ht _ IH]; intros w; [done|].
  cbn [promise_all]. specialize (Ht w).
  destruct (t w) as [r w1]. specialize (IH w1).
  destruct (promise_all tasks w1) as [rs w2].
  cbn [snd] in *. destruct r, rs; cbn [snd]; congruence.
Qed.

End PromiseFacts.

Section PromiseMapFacts.

Context {X Y A : Type}.
Context (start : X → files → result Y) (finish : X → Y → M A).
Implicit Types (xs : list X) (fs : files) (w : world).

(** Each callback that reached its [await] had started well. *)
Lemma awaited_spec fs xs :
  Forall (λ t, ∃ x y, x ∈ xs ∧ start x fs = Ok y ∧ t = finish x y)
    (awaited start finish fs xs).
Proof.
  induction xs as [|x xs IH]; [constructor|]. cbn [awaited].
  assert (Forall (λ t, ∃ x' y, x' ∈ x :: xs ∧ start x' fs = Ok y
                               ∧ t = finish x' y)
            (awaited start finish fs xs)) as IH'.
  { eapply Forall_impl; [exact IH|].
    intros t (x' & y & Hin & Hs & ->). exists x', y. split; [by right|done]. }
  destruct (start x fs) as [y|e] eqn:Hs; [|exact IH'].
  constructor; [|exact IH']. exists x, y. split; [by left|done].
Qed.

(** When no callback threw ahead of its [await], all of them got
    there. *)
Lemma rejected_early_None fs xs :
  rejected_early start fs xs = None →
  length (awaited start finish fs xs) = length xs.
Proof.
  induction xs as [|x xs IH]; [done|]. cbn [rejected_early awaited].
  destruct (start x fs) as [y|e]; [|done].
  intros Hrest. cbn [length]. by rewrite IH.
Qed.



(** When the whole resolves there is one result per element, each
    returned by the rest of a callback that had started well. *)
Lemma promise_all_map_Ok xs w l w' :
  promise_all_map start finish xs w = (Ok l, w') →
  length l = length xs
  ∧ Forall (λ a, ∃ x y w1 w2, x ∈ xs ∧ start x (w_files w) = Ok y
                              ∧ finish x y w1 = (Ok a, w2)) l.
Proof.
  unfold promise_all_map.
  destruct (rejected_early start (w_files w) xs) as [e|] eqn:Hearly; [done|].
  intros Hall. split.
  - rewrite (promise_all_length _ _ _ _ Hall).
    by apply rejected_early_None.
  - apply promise_all_Ok in Hall. apply Forall_forall. intros a Ha.
    destruct (proj1 (list_elem_of_lookup _ _) Ha) as [i Hi].
    destruct (Forall2_lookup_r _ _ _ _ _ Hall Hi)
      as (t & Ht & w1 & w2 & Hrun).
    apply list_elem_of_lookup_2 in Ht.
    pose proof (proj1 (Forall_forall _ _) (awaited_spec (w_files w) xs) t Ht)
      as (x & y & Hin & Hs & ->).
    by exists x, y, w1, w2.
Qed.

Lemma promise_all_map_ticks xs w :
  (∀ x y w1, w_ticks (finish x y w1).2 = w_ticks w1) →
  w_ticks (promise_all_map start finish xs w).2 = w_ticks w.
Proof.
  intros Hfinish.
  assert (w_ticks (promise_all (awaited start finish (w_files w) xs) w).2
          = w_ticks w) as Hall.
  { apply promise_all_ticks.
    eapply Forall_impl; [apply awaited_spec|].
    intros t (x & y & _ & _ & ->) w1. apply Hfinish. }
  unfold promise_all_map.
  by destruct (rejected_early start (w_files w) xs).
Qed.

End PromiseMapFacts.

(** ** The scratch workspace *)

Section Workspace.

Context `{H : Host}.

Lemma build_finally_spec (w : world) :
  ∃ w', build_finally w = (Ok (), w')
        ∧ w_files w' !! tempDir = None
        ∧ w_console w' = w_console w
        ∧ (∀ q, w_files w !! q = None → w_files w' !! q = None)
        ∧ (∀ q, ¬ below tempDir q → w_files w' !! q = w_files w !! q).
Proof.
  unfold build_finally, mbind, M_bind, fs_read, stat, fs_delete. simpl.
  destruct (w_files w !! tempDir) as [n|] eqn:Hn; simpl.
  - eexists. split; [done|]. simpl. repeat split; try done.
    + apply delete_lookup_below, below_refl.
    + intros q Hq. rewrite delete_lookup. by case_decide.
    + intros q Hq. by apply delete_lookup_other.
  - eexists. repeat split; done.
Qed.

Lemma build_acquire_Throw (w : world) e w1 :
  build_acquire w = (Throw e, w1) → w_files w1 !! tempDir = None.
Proof.
  unfold build_acquire, mbind, M_bind, console_log, fs_delete, fs_update.
  simpl. destruct (mkdir _ _); [done|]. intros [= _ <-]. simpl.
  apply delete_lookup_below, below_refl.
Qed.

Lemma build_guarded_absent (config : config) (w : world) r w' :
  build_guarded config w = (r, w') → w_files w' !! tempDir = None.
Proof.
  unfold build_guarded, try_finally.
  destruct (try_catch _ _ w) as [r1 w1].
  destruct (build_finally_spec w1) as (w2 & -> & Habs & _).
  by intros [= _ <-].
Qed.

Lemma build_tempDir_absent (config : config) (w : world) :
  w_files (build config w).2 !! tempDir = None.
Proof.
  unfold build. destruct (build_acquire w) as [[[]|e] w1] eqn:Hacq.
  - destruct (build_guarded config w1) as [[[c failed]|e] w2] eqn:Hg;
      apply build_guarded_absent in Hg;
      [destruct c; [destruct failed|]|]; done.
  - by eapply build_acquire_Throw.
Qed.

(** When the [try] block throws, the run is marked failed and, after
    the [finally] block, leaves through [process.exit(-1)]. *)
Lemma build_try_Throw (config : config) (w w1 w2 : world) e :
  build_acquire w = (Ok (), w1) →
  build_try config w1 = (Throw e, w2) →
  (build config w).1 = Exited (-1)
  ∧ w_console (build config w).2
    = w_console w2 ++ ["Failed to build runners"; e]
  ∧ (∀ q, w_files w2 !! q = None → w_files (build config w).2 !! q = None)
  ∧ (∀ q, ¬ below tempDir q →
          w_files (build config w).2 !! q = w_files w2 !! q).
Proof.
  intros Hacq Htry. unfold build. rewrite Hacq.
  unfold build_guarded, try_finally, try_catch.
  rewrite (bind_Throw _ _ _ _ _ Htry).
  unfold build_catch, mbind, M_bind, console_log, mret, M_ret. simpl.
  match goal with |- context [build_finally ?w3] =>
    destruct (build_finally_spec w3) as (w4 & -> & _ & Hcon & Hnone & Hoth)
  end.
  simpl in *. split; [done|]. rewrite Hcon. simpl.
  split; [by rewrite <-app_assoc|]. split; [exact Hnone|exact Hoth].
Qed.

End Workspace.

(** C1.  Whatever path a run of [build] takes, the scratch workspace
    directory [__temp__] does not exist when it is over; and a run whose
    bundling step throws is left through [process.exit(-1)], a non-zero
    exit. *)
Theorem build_releases_workspace `{H : Host} (config : config) (w : world) :
  w_files (build config w).2 !! tempDir = None
  ∧ ((build_acquire w).1 = Ok () →
     (clear_output config (acquired w)).1 = Ok () →
     throws (bundle runnerDir (cleared config w)).1 →
     (build config w).1 = Exited (-1)).
Proof.
  split; [apply build_tempDir_absent|].
  intros Hacq%run_Ok Hclear%run_Ok [e Hbundle]%run_throws.
  eapply (build_try_Throw config w _ _ e); [exact Hacq|].
  unfold build_try.
  rewrite (bind_Ok _ _ _ _ _ Hclear).
  by rewrite (bind_Throw _ _ _ _ _ Hbundle).
Qed.

Lemma build_releases_workspace_witness :
  w_files (build (H:=Demo.host) Demo.defaults Demo.broken_bundle).2
    !! tempDir (H:=Demo.host) = None
  ∧ (build (H:=Demo.host) Demo.defaults Demo.broken_bundle).1 = Exited (-1).
Proof.
  destruct (build_releases_workspace (H:=Demo.host)
              Demo.defaults Demo.broken_bundle) as [Habsent Hexit].
  split; [exact Habsent|].
  apply Hexit; vm_compute; [reflexivity|reflexivity|exact I].
Defined.

(** ** Entry-point discovery *)

Section Includes.

Lemma app_String (c : ascii) (s t : string) :
  String c s +:+ t = String c (s +:+ t).
Proof. reflexivity. Qed.

Lemma app_empty (t : string) : "" +:+ t = t.
Proof. reflexivity. Qed.

Lemma prefix_spec (needle hay : string) :
  String.prefix needle hay = true ↔ ∃ b, hay = needle +:+ b.
Proof.
  revert hay. induction needle as [|c needle IH]; intros hay.
  - split; [intros _; by exists hay|]. by destruct hay.
  - destruct hay as [|d hay]; simpl.
    + split; [done|]. intros [b Hb]. by rewrite app_String in Hb.
    + destruct (ascii_dec c d) as [->|Hne].
      * rewrite IH. split; intros [b Hb]; exists b.
        -- by rewrite app_String, Hb.
        -- rewrite app_String in Hb. congruence.
      * split; [done|]. intros [b Hb]. rewrite app_String in Hb. congruence.
Qed.

(** [includes] is the plain substring test. *)
Lemma includes_spec (hay needle : string) :
  includes hay needle = true ↔ ∃ a b, hay = a +:+ needle +:+ b.
Proof.
  induction hay as [|c hay IH].
  - cbn [includes]. rewrite orb_false_r, prefix_spec. split.
    + intros [b Hb]. by exists "", b.
    + intros ([|? a] & b & Hb); [by exists b|].
      by rewrite app_String in Hb.
  - cbn [includes]. rewrite orb_true_iff, prefix_spec, IH. split.
    + intros [[b Hb]|(a & b & Hb)].
      * by exists "", b.
      * exists (String c a), b. by rewrite app_String, Hb.
    + intros ([|d a] & b & Hb).
      * left. by exists b.
      * right. rewrite app_String in Hb. injection Hb as _ Hb.
        by exists a, b.
Qed.

End Includes.

Section Discovery.

Context `{H : Host}.

Lemma scanFile_Ok (f : path) (w : world) (o : option entry) (w' : world) :
  scanFile f w = (Ok o, w') →
  w_files w' = w_files w
  ∧ w_console w' = w_console w
  ∧ (∃ text, readFile f (w_files w) = Ok text)
  ∧ e_in <$> from_option (λ e, [e]) [] o
    = if qualifies (w_files w) f then [f] else [].
Proof.
  unfold scanFile, qualifies, mbind, M_bind, fs_read, randomUUID.
  destruct (readFile f (w_files w)) as [text|e]; [|done].
  destruct (includes text MARKER); simpl; intros [= <- <-]; eauto.
Qed.

Lemma scanFile_Throw (f : path) (w : world) e (w' : world) :
  scanFile f w = (Throw e, w') →
  w' = w ∧ readFile f (w_files w) = Throw e.
Proof.
  unfold scanFile, mbind, M_bind, fs_read, randomUUID.
  destruct (readFile f (w_files w)) as [text|e']; simpl.
  - by destruct (includes text MARKER).
  - by intros [= -> ->].
Qed.

Lemma scanFile_files (f : path) (w : world) :
  w_files (scanFile f w).2 = w_files w
  ∧ w_console (scanFile f w).2 = w_console w.
Proof.
  destruct (scanFile f w) as [[o|e] w'] eqn:Hs; simpl.
  - by destruct (scanFile_Ok _ _ _ _ Hs) as (? & ? & _).
  - by destruct (scanFile_Throw _ _ _ _ Hs) as [-> _].
Qed.

Lemma scan_all_files (names : list path) (w : world) :
  w_files (promise_all (scanFile <$> names) w).2 = w_files w
  ∧ w_console (promise_all (scanFile <$> names) w).2 = w_console w.
Proof.
  revert w. induction names as [|f names IH]; intros w; [done|].
  rewrite fmap_cons. cbn [promise_all].
  pose proof (scanFile_files f w) as [Hf Hc].
  destruct (scanFile f w) as [r w1]. pose proof (IH w1) as [IHf IHc].
  destruct (promise_all (scanFile <$> names) w1) as [rs w2].
  cbn [snd] in *. destruct r, rs; cbn [snd]; split; congruence.
Qed.

Lemma scan_all_Ok (names : list path) (w : world) pushed w' :
  promise_all (scanFile <$> names) w = (Ok pushed, w') →
  e_in <$> omap id pushed = filter (λ f, qualifies (w_files w) f) names.
Proof.
  revert w pushed w'.
  induction names as [|f names IH]; intros w pushed w'; simpl.
  - by intros [= <- _].
  - destruct (scanFile f w) as [[o|e] w1] eqn:Hs; [|done].
    destruct (promise_all _ w1) as [[l|e] w2] eqn:Hrest; [|done].
    intros [= <- _]. apply scanFile_Ok in Hs as (Hfs & _ & _ & Ho).
    apply IH in Hrest. rewrite Hfs in Hrest.
    destruct (qualifies (w_files w) f) eqn:Hq.
    + rewrite filter_cons_True by (by rewrite Hq).
      destruct o as [e|]; [|done]. injection Ho as Ho.
      cbn [omap list_omap id fmap list_fmap]. by rewrite Ho, <-Hrest.
    + rewrite filter_cons_False by (rewrite Hq; intros []).
      destruct o as [e|]; [by simpl in Ho|].
      cbn [omap list_omap id]. exact Hrest.
Qed.

(** Discovery reads, and never writes: it leaves the disk and the
    console as they were. *)
Lemma findSourceEntryPoints_files (w : world) :
  w_files (findSourceEntryPoints w).2 = w_files w
  ∧ w_console (findSourceEntryPoints w).2 = w_console w.
Proof.
  unfold findSourceEntryPoints, mbind, M_bind, fs_read.
  destruct (tsconfig_fileNames (w_files w)) as [names|e]; [|done].
  pose proof (scan_all_files (read_order names) w) as [Hf Hc].
  destruct (promise_all _ w) as [[l|e] w1]; done.
Qed.

Lemma findSourceEntryPoints_Ok (w : world) entries w' :
  findSourceEntryPoints w = (Ok entries, w') →
  ∃ fileNames,
    tsconfig_fileNames (w_files w) = Ok fileNames
    ∧ e_in <$> entries
      = filter (λ f, qualifies (w_files w) f) (read_order fileNames).
Proof.
  unfold findSourceEntryPoints, mbind, M_bind, fs_read.
  destruct (tsconfig_fileNames (w_files w)) as [names|e]; [|done].
  destruct (promise_all _ w) as [[l|e] w1] eqn:Hall; [|done].
  intros [= <- _]. exists names. split; [done|]. by eapply scan_all_Ok.
Qed.

Lemma scan_all_Throw (names : list path) (w : world) e w' :
  promise_all (scanFile <$> names) w = (Throw e, w') →
  ∃ f, f ∈ names ∧ readFile f (w_files w) = Throw e.
Proof.
  revert w. induction names as [|f names IH]; intros w; [done|].
  rewrite fmap_cons. cbn [promise_all].
  destruct (scanFile f w) as [[o|e1] w1] eqn:Hs.
  - destruct (promise_all (scanFile <$> names) w1) as [[l|e2] w2] eqn:Hrest;
      [done|].
    intros [= -> ->]. destruct (IH _ Hrest) as (f' & Hin & Hread).
    destruct (scanFile_Ok _ _ _ _ Hs) as (Hfs & _).
    exists f'. split; [by right|]. by rewrite <-Hfs.
  - intros [= -> _]. destruct (scanFile_Throw _ _ _ _ Hs) as [_ Hread].
    exists f. split; [by left|done].
Qed.

Lemma scan_all_rejects (names : list path) (w : world) (f : path) :
  f ∈ names →
  throws (readFile f (w_files w)) →
  throws (promise_all (scanFile <$> names) w).1.
Proof.
  revert w. induction names as [|f' names IH]; intros w Hin Hbad;
    [by apply elem_of_nil in Hin|].
  rewrite fmap_cons. cbn [promise_all].
  pose proof (scanFile_files f' w) as [Hfs _].
  destruct (scanFile f' w) as [[o|e1] w1] eqn:Hs; [|done].
  cbn [snd] in Hfs.
  apply elem_of_cons in Hin as [<-|Hin].
  - destruct (scanFile_Ok _ _ _ _ Hs) as (_ & _ & [text Hread] & _).
    by rewrite Hread in Hbad.
  - assert (throws (promise_all (scanFile <$> names) w1).1) as Hrest.
    { apply IH; [done|]. by rewrite Hfs. }
    by destruct (promise_all (scanFile <$> names) w1) as [[l|e2] w2].
Qed.

(** Discovery fails exactly when the configuration cannot be resolved
    or one of the files it lists cannot be read. *)
Lemma findSourceEntryPoints_throws (w : world) :
  throws (findSourceEntryPoints w).1
  ↔ throws (tsconfig_fileNames (w_files w))
    ∨ ∃ fileNames f,
        tsconfig_fileNames (w_files w) = Ok fileNames
        ∧ f ∈ fileNames
        ∧ throws (readFile f (w_files w)).
Proof.
  unfold findSourceEntryPoints, mbind, M_bind, fs_read.
  destruct (tsconfig_fileNames (w_files w)) as [names|e]; simpl.
  - split.
    + destruct (promise_all (scanFile <$> read_order names) w)
        as [[l|e] w1] eqn:Hall; [done|].
      intros _. right.
      destruct (scan_all_Throw _ _ _ _ Hall) as (f & Hin & Hr).
      rewrite read_order_settles in Hin.
      exists names, f. by rewrite Hr.
    + intros [[]|(names' & f & [= <-] & Hin & Hbad)].
      rewrite <-(read_order_settles names) in Hin.
      pose proof (scan_all_rejects _ w f Hin Hbad) as Hrej.
      by destruct (promise_all (scanFile <$> read_order names) w)
        as [[l|e] w1].
  - split; [by left|done].
Qed.

End Discovery.

(** ** The output directory *)

Section Output.

Context `{H : Host}.

(** Once cleared, the output directory is an empty directory; what is
    neither below it nor above it is as before. *)
Lemma clear_output_spec (config : config) (w1 w2 : world) :
  clear_output config w1 = (Ok (), w2) →
  w_files w2 !! outDir config = Some Dir
  ∧ (∀ q, sbelow (outDir config) q → w_files w2 !! q = None)
  ∧ (∀ q, ¬ below (outDir config) q → ¬ q `prefix_of` outDir config →
          w_files w2 !! q = w_files w1 !! q)
  ∧ w_console w2 = w_console w1
  ∧ w_ticks w2 = w_ticks w1
  ∧ w_uuids w2 = w_uuids w1.
Proof.
  unfold clear_output, mbind, M_bind, fs_delete, fs_update. simpl.
  destruct (mkdir _ _) as [fs'|e] eqn:Hmk; [|done]. intros [= <-]. simpl.
  pose proof (mkdir_Ok_lookup _ _ _ (outDir config) Hmk) as Hout.
  rewrite decide_True in Hout by done.
  repeat split; try done.
  - intros q [Hb Hne]. rewrite (mkdir_Ok_lookup _ _ _ q Hmk).
    rewrite decide_False.
    + by apply delete_lookup_below.
    + intros Hpre. apply Hne. by apply (anti_symm prefix).
  - intros q Hnb Hnp. rewrite (mkdir_Ok_lookup _ _ _ q Hmk).
    rewrite decide_False by done. by apply delete_lookup_other.
Qed.

End Output.

(** C8.  Among the files the project resolves to, a file becomes an
    entry point if and only if its text contains the marker
    ["class Target"] somewhere: a plain substring test.  So a file whose
    whole text is the comment ["// class Target"] is selected too. *)
Theorem entry_iff_marker_substring `{H : Host}
    (w : world) (entries : list entry) :
  (findSourceEntryPoints w).1 = Ok entries →
  ∃ fileNames,
    tsconfig_fileNames (w_files w) = Ok fileNames
    ∧ (∀ f, f ∈ e_in <$> entries
            ↔ f ∈ fileNames
              ∧ ∃ text, readFile f (w_files w) = Ok text
                        ∧ ∃ a b, text = a +:+ "class Target" +:+ b)
    ∧ (∀ f, f ∈ fileNames →
            readFile f (w_files w) = Ok "// class Target" →
            f ∈ e_in <$> entries).
Proof.
  intros Hfind%run_Ok.
  destruct (findSourceEntryPoints_Ok _ _ _ Hfind) as (fileNames & Hcfg & Hin).
  exists fileNames. split; [done|].
  assert (∀ f, f ∈ e_in <$> entries
            ↔ f ∈ fileNames
              ∧ ∃ text, readFile f (w_files w) = Ok text
                        ∧ ∃ a b, text = a +:+ "class Target" +:+ b) as Hiff.
  { intros f. rewrite Hin, list_elem_of_filter, read_order_settles.
    unfold qualifies. split.
    - intros [Hq Hf]. split; [done|].
      destruct (readFile f (w_files w)) as [text|e]; [|done].
      exists text. split; [done|].
      apply (includes_spec text MARKER). by apply Is_true_true.
    - intros [Hf (text & -> & Hsub)]. split; [|done].
      apply Is_true_true. by apply (includes_spec text MARKER). }
  split; [exact Hiff|].
  intros f Hf Hread. apply Hiff. split; [done|].
  exists "// class Target". split; [done|]. by exists "// ", "".
Qed.

Lemma entry_iff_marker_substring_witness :
  ["proj"; "src"; "c.ts"]
  ∈ e_in <$> [Entry ["proj"; "src"; "c.ts"] "u0";
              Entry ["proj"; "src"; "b.ts"] "u1";
              Entry ["proj"; "src"; "a.ts"] "u2"].
Proof.
  destruct (entry_iff_marker_substring (H:=Demo.host) Demo.commented
              [Entry ["proj"; "src"; "c.ts"] "u0";
               Entry ["proj"; "src"; "b.ts"] "u1";
               Entry ["proj"; "src"; "a.ts"] "u2"])
    as (fileNames & Hcfg & _ & Hcomment).
  { vm_compute. reflexivity. }
  apply Hcomment.
  - vm_compute in Hcfg. injection Hcfg as <-. set_solver.
  - vm_compute. reflexivity.
Defined.

(** C3, as the code has it.  Entry-point discovery fails exactly when
    the resolution configuration cannot be resolved or a file it lists
    cannot be read.  It runs inside the bundling step, after the scratch
    workspace was created and the output directory cleared and created
    again: when it fails the run leaves through [process.exit(-1)] with
    the output directory already emptied and the scratch workspace
    removed. *)
Theorem discovery_failure_after_clearing `{H : Host} :
  (∀ w, throws (findSourceEntryPoints w).1
        ↔ throws (tsconfig_fileNames (w_files w))
          ∨ ∃ fileNames f,
              tsconfig_fileNames (w_files w) = Ok fileNames
              ∧ f ∈ fileNames
              ∧ throws (readFile f (w_files w)))
  ∧ ∀ config w,
      (build_acquire w).1 = Ok () →
      (clear_output config (acquired w)).1 = Ok () →
      throws (findSourceEntryPoints (cleared config w)).1 →
      w_files (cleared config w) !! outDir config = Some Dir
      ∧ (build config w).1 = Exited (-1)
      ∧ (∀ q, sbelow (outDir config) q →
              w_files (build config w).2 !! q = None)
      ∧ w_files (build config w).2 !! tempDir = None.
Proof.
  split; [exact findSourceEntryPoints_throws|].
  intros config w Hacq%run_Ok Hclear%run_Ok Hthrows.
  fold (acquired w) in Hacq. fold (cleared config w) in Hclear.
  destruct (clear_output_spec _ _ _ Hclear) as (Hdir & Hempty & _).
  pose proof (findSourceEntryPoints_files (cleared config w)) as [Hfs _].
  destruct (findSourceEntryPoints (cleared config w)) as [[entries|e] w3]
    eqn:Hfind; [done|].
  cbn [snd] in Hfs.
  assert (build_try config (acquired w) = (Throw e, w3)) as Htry.
  { unfold build_try. rewrite (bind_Ok _ _ _ _ _ Hclear).
    apply bind_Throw. unfold bundle. by apply bind_Throw. }
  destruct (build_try_Throw _ _ _ _ _ Hacq Htry) as (Hexit & _ & Hnone & _).
  split; [done|]. split; [done|]. split.
  - intros q Hq. apply Hnone. rewrite Hfs. by apply Hempty.
  - apply build_tempDir_absent.
Qed.

Lemma discovery_failure_after_clearing_witness :
  (build (H:=Demo.host) Demo.defaults Demo.bad_tsconfig).1 = Exited (-1)
  ∧ w_files (build (H:=Demo.host) Demo.defaults Demo.bad_tsconfig).2
      !! Demo.stray = None.
Proof.
  destruct (discovery_failure_after_clearing (H:=Demo.host)) as [_ Hrun].
  destruct (Hrun Demo.defaults Demo.bad_tsconfig)
    as (_ & Hexit & Hempty & _).
  - vm_compute. reflexivity.
  - vm_compute. reflexivity.
  - vm_compute. exact I.
  - split; [exact Hexit|]. apply Hempty. split.
    + by exists ["stray.txt"].
    + discriminate.
Defined.

(** C3 as the specification words it fails twice over.  Discovery can
    fail although the configuration was parsed, here on a listed file
    that is missing; and when the configuration cannot be parsed, the
    output directory has been cleared all the same: the stray file that
    was in it is gone. *)
Lemma discovery_failure_counterexample :
  (tsconfig_fileNames (Host:=Demo.host) (w_files Demo.missing_source)
   = Ok [["proj"; "src"; "util.ts"]; ["proj"; "src"; "b.ts"];
         ["proj"; "src"; "a.ts"]; ["proj"; "src"; "gone.ts"]]
   ∧ (findSourceEntryPoints (H:=Demo.host) Demo.missing_source).1
     = Throw "ENOENT: no such file or directory, open")
  ∧ (tsconfig_fileNames (Host:=Demo.host) (w_files Demo.bad_tsconfig)
     = Throw "tsconfig.json: cannot parse"
     ∧ w_files Demo.bad_tsconfig !! Demo.stray = Some (File "left over")
     ∧ (build (H:=Demo.host) Demo.defaults Demo.bad_tsconfig).1 = Exited (-1)
     ∧ w_console (build (H:=Demo.host) Demo.defaults Demo.bad_tsconfig).2
       = ["Building..."; "Failed to build runners";
          "tsconfig.json: cannot parse"]
     ∧ w_files (build (H:=Demo.host) Demo.defaults Demo.bad_tsconfig).2
         !! Demo.stray = None).
Proof. vm_compute. repeat split. Qed.

(** ** Catalog generation *)

Section Objects.

Implicit Types (o : obj) (k : string) (v : jsval).

Lemma obj_get_set_eq o k v : obj_get (obj_set o k v) k = v.
Proof.
  induction o as [|[k' v'] o IH]; simpl.
  - by rewrite decide_True.
  - destruct (decide (k' = k)) as [->|Hne]; simpl.
    + by rewrite decide_True.
    + by rewrite decide_False.
Qed.

Lemma obj_get_set_ne o k k' v :
  k ≠ k' → obj_get (obj_set o k v) k' = obj_get o k'.
Proof.
  intros Hne. induction o as [|[k0 v0] o IH]; simpl.
  - by rewrite decide_False.
  - destruct (decide (k0 = k)) as [->|Hne0]; simpl.
    + by rewrite !decide_False.
    + destruct (decide (k0 = k')); [done|apply IH].
Qed.

End Objects.

Section Catalog.

Context `{H : Host}.

Lemma targetObject_hash (info : obj) (env : jsval) (t : Z) :
  obj_get (targetObject info env t) "hash" = JStr (entry_hash info t).
Proof. apply obj_get_set_eq. Qed.

Lemma targetObject_path (info : obj) (env : jsval) (t : Z) :
  obj_get (targetObject info env t) "path" = obj_get info "name".
Proof.
  unfold targetObject.
  rewrite !obj_get_set_ne by done. apply obj_get_set_eq.
Qed.

Lemma targetObject_name (info : obj) (env : jsval) (t : Z) :
  obj_get (targetObject info env t) "name" = obj_get info "name".
Proof. unfold targetObject. by rewrite !obj_get_set_ne. Qed.

(** What a task does, call by call. *)
Lemma listRunner_unfold (rd ord : path) (t : Z) (name : string) (w : world) :
  listRunner rd ord t name w
  = match require_module (join rd name) (w_files w) with
    | Throw e => (Throw e, w)
    | Ok sttPackage =>
        match emulate (module_Target sttPackage) with
        | Throw e => (Throw e, w)
        | Ok runner =>
            match evaluateEnvironment runner with
            | Throw e => (Throw e, w)
            | Ok env =>
                let object := targetObject (runner_info runner) env t in
                match copyFile (join rd name)
                        (join ord
                           (to_string (obj_get object "path") +:+ ".stt"))
                        (w_files w) with
                | Throw e => (Throw e, w)
                | Ok fs' => (Ok (JObj object), with_files w fs')
                end
            end
        end
    end.
Proof.
  unfold listRunner, mbind, M_bind, fs_read, lift_result, fs_update.
  cbn [negb].
  destruct (require_module _ _) as [sttPackage|e]; [|done].
  destruct (emulate _) as [runner|e]; [|done].
  destruct (evaluateEnvironment _) as [env|e]; [|done].
  cbv zeta. by destruct (copyFile _ _ _).
Qed.

Lemma listRunner_Ok (rd ord : path) (t : Z) (name : string) (w : world)
    (r : jsval) (w' : world) :
  listRunner rd ord t name w = (Ok r, w') →
  ∃ runner env, r = JObj (targetObject (runner_info runner) env t).
Proof.
  rewrite listRunner_unfold.
  destruct (require_module _ _) as [sttPackage|e]; [|done].
  destruct (emulate _) as [runner|e]; [|done].
  destruct (evaluateEnvironment _) as [env|e]; [|done].
  cbv zeta. destruct (copyFile _ _ _); [|done].
  intros [= <- _]. by exists runner, env.
Qed.

Lemma listRunner_ticks (rd ord : path) (t : Z) (name : string) (w : world) :
  w_ticks (listRunner rd ord t name w).2 = w_ticks w.
Proof.
  rewrite listRunner_unfold.
  destruct (require_module _ _) as [sttPackage|e]; [|done].
  destruct (emulate _) as [runner|e]; [|done].
  destruct (evaluateEnvironment _) as [env|e]; [|done].
  cbv zeta. by destruct (copyFile _ _ _).
Qed.

(** The two parts of the callback, one after the other, are the
    callback. *)
Lemma listRunner_phases (rd ord : path) (t : Z) (name : string) (w : world) :
  listRunner rd ord t name w
  = (loaded ← fs_read (loadRunner rd t name);
     finishRunner rd ord name loaded) w.
Proof.
  rewrite listRunner_unfold.
  unfold loadRunner, finishRunner, mbind, M_bind, result_bind, fs_read,
    fs_update.
  cbn [negb].
  destruct (require_module _ _) as [sttPackage|e]; [|done].
  destruct (emulate _) as [runner|e]; [|done].
  destruct (evaluateEnvironment _) as [env|e]; [|done].
  cbv zeta. by destruct (copyFile _ _ _).
Qed.

Lemma loadRunner_Ok (rd : path) (t : Z) (name : string) (fs : files)
    (loaded : option obj) :
  loadRunner rd t name fs = Ok loaded →
  ∃ runner env, loaded = Some (targetObject (runner_info runner) env t).
Proof.
  unfold loadRunner, mbind, result_bind. cbn [negb].
  destruct (require_module _ _) as [sttPackage|e]; [|done].
  destruct (emulate _) as [runner|e]; [|done].
  destruct (evaluateEnvironment _) as [env|e]; [|done].
  intros [= <-]. by exists runner, env.
Qed.

Lemma finishRunner_Ok (rd ord : path) (name : string) (object : obj)
    (w : world) (r : jsval) (w' : world) :
  finishRunner rd ord name (Some object) w = (Ok r, w') → r = JObj object.
Proof.
  unfold finishRunner, mbind, M_bind, fs_update.
  destruct (copyFile _ _ _); [|done]. by intros [= <- _].
Qed.

Lemma finishRunner_ticks (rd ord : path) (name : string)
    (loaded : option obj) (w : world) :
  w_ticks (finishRunner rd ord name loaded w).2 = w_ticks w.
Proof.
  destruct loaded as [object|]; [|done].
  unfold finishRunner, mbind, M_bind, fs_update.
  by destruct (copyFile _ _ _).
Qed.

(** [generateList] is its tasks followed by the manifest. *)
Lemma generateList_split (rd od : path) (w : world) :
  generateList rd od w
  = (generateList_tasks rd od ≫= λ tr, generateList_manifest od tr.2) w.
Proof.
  unfold generateList, generateList_tasks, generateList_manifest.
  unfold mbind, M_bind, Date_now, fs_update, fs_read. simpl.
  destruct (mkdir _ _) as [fs1|e]; [|done]. simpl.
  destruct (readdir _ _) as [names|e]; [|done].
  by destruct (promise_all_map _ _ _ _) as [[runners|e] w2].
Qed.

Lemma generateList_tasks_Ok (rd od : path) (w : world)
    (t : Z) (runners : list jsval) (w' : world) :
  generateList_tasks rd od w = (Ok (t, runners), w') →
  t = clock (w_ticks w)
  ∧ w_ticks w' = S (w_ticks w)
  ∧ Forall (λ r, ∃ runner env,
              r = JObj (targetObject (runner_info runner) env t)) runners
  ∧ ∃ fs1 names,
      mkdir (join od "runners") (w_files w) = Ok fs1
      ∧ readdir rd fs1 = Ok names
      ∧ length runners = length names.
Proof.
  unfold generateList_tasks, mbind, M_bind, Date_now, fs_update, fs_read.
  simpl. destruct (mkdir _ _) as [fs1|e]; [|done]. simpl.
  destruct (readdir _ _) as [names|e] eqn:Hnames; [|done].
  match goal with |- context [promise_all_map ?start ?finish names ?w1] =>
    pose proof (promise_all_map_ticks start finish names w1
                  (finishRunner_ticks rd (join od "runners"))) as Hticks;
    destruct (promise_all_map start finish names w1) as [[rs|e] w2] eqn:Hall;
      [|done]
  end.
  apply promise_all_map_Ok in Hall as [Hlen Hall].
  intros [= <- <- <-]. split; [done|]. split; [exact Hticks|]. split.
  - eapply Forall_impl; [exact Hall|].
    intros r (name & loaded & w1 & w2' & _ & Hload & Hfinish).
    apply loadRunner_Ok in Hload as (runner & env & ->).
    apply finishRunner_Ok in Hfinish as ->. by exists runner, env.
  - by exists fs1, names.
Qed.

Lemma put_file_lookup (p : path) (c : string) (fs fs' : files) :
  put_file p c fs = Ok fs' → fs' !! p = Some (File c).
Proof.
  unfold put_file. repeat case_match; try done.
  intros [= <-]. apply lookup_insert_eq.
Qed.

Lemma generateList_manifest_Ok (od : path) (runners : list jsval)
    (w w' : world) :
  generateList_manifest od runners w = (Ok (), w') →
  w_ticks w' = w_ticks w
  ∧ ∃ listName,
      w_files w' !! join od "runners.json"
      = Some (File (JSON_stringify
                      (JObj [("runners", JArr runners);
                             ("listName", listName)]))).
Proof.
  unfold generateList_manifest, mbind, M_bind, fs_read, lift_result,
    fs_update, writeFile.
  destruct (stat _ _); [|done].
  destruct (require_json _ _) as [pkgJSON|e]; [|done].
  destruct (get_prop pkgJSON "stt") as [stt|e]; [|done].
  destruct (put_file _ _ _) as [fs'|e] eqn:Hput; [|done].
  intros [= <-]. split; [done|]. eexists.
  by apply put_file_lookup in Hput.
Qed.

End Catalog.

(** C5.  In a run of [generateList] that succeeds the clock is read
    once, and every entry of the catalog written to [runners.json]
    carries as its hash the hex SHA-256 of the JSON text of the runner's
    metadata followed by the decimal digits of that one reading. *)
Theorem catalog_hash_uses_one_epoch `{H : Host} (rd od : path) (w : world) :
  (generateList rd od w).1 = Ok () →
  w_ticks (generateList rd od w).2 = S (w_ticks w)
  ∧ ∃ runners listName,
      w_files (generateList rd od w).2 !! join od "runners.json"
      = Some (File (JSON_stringify
                      (JObj [("runners", JArr runners);
                             ("listName", listName)])))
      ∧ Forall
          (λ r, ∃ runner env,
             r = JObj (targetObject (runner_info runner) env
                         (clock (w_ticks w)))
             ∧ obj_get (targetObject (runner_info runner) env
                          (clock (w_ticks w))) "hash"
               = JStr (sha256_hex
                         (JSON_stringify (JObj (runner_info runner))
                          +:+ pretty (clock (w_ticks w)))))
          runners.
Proof.
  intros Hgen%run_Ok. revert Hgen.
  generalize (generateList rd od w).2. intros w'.
  rewrite generateList_split. intros Hgen.
  apply bind_Ok_inv in Hgen as ([t runners] & w1 & Htasks & Hman).
  apply generateList_tasks_Ok in Htasks as (-> & Hticks & Hall & _).
  apply generateList_manifest_Ok in Hman as (Hticks' & listName & Hfile).
  split; [congruence|]. exists runners, listName. split; [exact Hfile|].
  eapply Forall_impl; [exact Hall|]. intros r (runner & env & ->).
  exists runner, env. split; [done|]. apply targetObject_hash.
Qed.

Lemma catalog_hash_uses_one_epoch_witness :
  w_ticks
    (generateList (H:=Demo.host) (runnerDir (H:=Demo.host))
       (outDir (H:=Demo.host) Demo.defaults)
       (bundled (H:=Demo.host) Demo.defaults Demo.good)).2
  = S (w_ticks (bundled (H:=Demo.host) Demo.defaults Demo.good)).
Proof.
  apply (catalog_hash_uses_one_epoch (H:=Demo.host)).
  vm_compute. reflexivity.
Defined.

(** C6.  For the same metadata and two different epochs the texts that
    are hashed differ, and so do the hashes as far as the hash function
    tells different texts apart. *)
Theorem hash_differs_across_epochs `{H : Host} (info : obj) (t1 t2 : Z) :
  t1 ≠ t2 →
  JSON_stringify (JObj info) +:+ pretty t1
  ≠ JSON_stringify (JObj info) +:+ pretty t2
  ∧ (Inj (=) (=) sha256_hex → entry_hash info t1 ≠ entry_hash info t2).
Proof.
  intros Hne.
  assert (JSON_stringify (JObj info) +:+ pretty t1
          ≠ JSON_stringify (JObj info) +:+ pretty t2) as Htext.
  { intros Heq. apply Hne, (inj pretty).
    exact (String.app_inj (JSON_stringify (JObj info)) _ _ Heq). }
  split; [exact Htext|].
  intros Hinj Heq. apply Htext. by apply Hinj.
Qed.

Lemma hash_differs_across_epochs_witness :
  entry_hash (H:=Demo.host) [("name", JStr "Alpha")] 1700000000000
  ≠ entry_hash (H:=Demo.host) [("name", JStr "Alpha")] 1700000000001.
Proof.
  refine (proj2 (hash_differs_across_epochs (H:=Demo.host)
                   [("name", JStr "Alpha")] 1700000000000 1700000000001 _)
            (String.app_inj "sha256:")).
  lia.
Defined.

Section CatalogFailure.

Context `{H : Host}.





End CatalogFailure.




(** ** The post-steps *)

Section PostSteps.

Context `{H : Host}.

(** With the catalog built and the scratch workspace released, what is
    left of the [try] block are the two post-steps. *)
Lemma build_try_after_catalog (config : config) (w1 w2 : world) :
  truthy (noList config) = false →
  catalog_steps config w1 = (Ok (), w2) →
  build_try config w1
  = (copy_assets config;; prepare_html config;; mret Normal) w2.
Proof.
  intros HnoList. unfold catalog_steps, build_try. rewrite HnoList.
  unfold mbind at 1 2 3 4 5 6 7 8. unfold M_bind at 1 2 3 4 5 6 7 8.
  destruct (clear_output config w1) as [[[]|e] wa]; [|done].
  destruct (bundle runnerDir wa) as [[[]|e] wb]; [|done].
  destruct (generateList _ _ wb) as [[[]|e] wc]; [|done].
  destruct (fs_delete tempDir wc) as [[[]|e] wd]; [|done].
  by intros [= <-].
Qed.

Lemma build_try_Ok (config : config) (w w1 w2 : world) (c : completion) :
  build_acquire w = (Ok (), w1) →
  build_try config w1 = (Ok c, w2) →
  (build config w).1 = Returned
  ∧ w_console (build config w).2 = w_console w2
  ∧ (∀ q, ¬ below tempDir q →
          w_files (build config w).2 !! q = w_files w2 !! q)
  ∧ (∀ q, w_files w2 !! q = None → w_files (build config w).2 !! q = None)
  ∧ w_ticks (build config w).2 = w_ticks w2.
Proof.
  intros Hacq Htry. unfold build. rewrite Hacq.
  unfold build_guarded, try_finally, try_catch.
  rewrite (bind_Ok _ _ _ _ _ Htry). unfold mret, M_ret.
  destruct (build_finally_spec w2) as (w3 & Hfin & _ & Hcon & Hnone & Hoth).
  assert (w_ticks w3 = w_ticks w2) as Hticks.
  { revert Hfin. unfold build_finally, mbind, M_bind, fs_read, fs_delete.
    simpl. destruct (stat _ _); by intros [= <-]. }
  rewrite Hfin. by destruct c.
Qed.

End PostSteps.

(** C4, as the code has it.  With the catalog built, a failure of the
    HTML generation is caught and logged and the run still ends well;
    a failure while the assets directory is copied is not caught on the
    spot: it reaches the top-level handler, which logs it, and the run
    leaves through [process.exit(-1)]. *)
Theorem html_failure_soft_asset_failure_fatal `{H : Host}
    (config : config) (w : world) :
  (build_acquire w).1 = Ok () →
  truthy (noList config) = false →
  (catalog_steps config (acquired w)).1 = Ok () →
  (∀ e,
     (copy_assets config (released config w)).1 = Ok () →
     (generateHTML (folder config)
        (copy_assets config (released config w)).2).1 = Throw e →
     (build config w).1 = Returned
     ∧ w_console (build config w).2
       = w_console (generateHTML (folder config)
                      (copy_assets config (released config w)).2).2
         ++ ["Failed to prepare HTML"; e])
  ∧ (∀ e,
       existsSync (join cwd "assets") (w_files (released config w)) = true →
       (fsExtra_copy (join cwd "assets") (join (outDir config) "assets")
          (released config w)).1 = Throw e →
       (build config w).1 = Exited (-1)
       ∧ w_console (build config w).2
         = w_console (fsExtra_copy (join cwd "assets")
                        (join (outDir config) "assets")
                        (released config w)).2
           ++ ["Failed to build runners"; e]).
Proof.
  intros Hacq%run_Ok HnoList Hcat%run_Ok.
  fold (acquired w) in Hacq. fold (released config w) in Hcat.
  pose proof (build_try_after_catalog _ _ _ HnoList Hcat) as Htry.
  split.
  - intros e Hcopy%run_Ok Hhtml%run_Throw.
    match type of Hhtml with _ = (_, ?w4) =>
      assert (build_try config (acquired w)
              = (Ok Normal,
                 World (w_files w4) (w_ticks w4) (w_uuids w4)
                   ((w_console w4 ++ ["Failed to prepare HTML"]) ++ [e])))
        as Hok
    end.
    { rewrite Htry, (bind_Ok _ _ _ _ _ Hcopy).
      unfold prepare_html, try_catch, mbind, M_bind. rewrite Hhtml.
      reflexivity. }
    destruct (build_try_Ok _ _ _ _ _ Hacq Hok) as (Hout & Hcon & _).
    split; [done|]. rewrite Hcon. simpl. by rewrite <-app_assoc.
  - intros e Hex Hcopy%run_Throw.
    match type of Hcopy with _ = (_, ?w3) =>
      assert (build_try config (acquired w) = (Throw e, w3)) as Hbad
    end.
    { rewrite Htry. apply bind_Throw.
      unfold copy_assets, mbind, M_bind, fs_read. by rewrite Hex. }
    destruct (build_try_Throw _ _ _ _ _ Hacq Hbad) as (Hout & Hcon & _).
    done.
Qed.

Lemma html_failure_soft_asset_failure_fatal_witness :
  (build (H:=Demo.host) Demo.defaults Demo.no_template).1 = Returned.
Proof.
  destruct (html_failure_soft_asset_failure_fatal (H:=Demo.host)
              Demo.defaults Demo.no_template) as [Hsoft _].
  - vm_compute. reflexivity.
  - reflexivity.
  - vm_compute. reflexivity.
  - apply (Hsoft "ENOENT: no such file or directory, open");
      vm_compute; reflexivity.
Defined.

(** C4 as the specification words it fails for the asset copy: a build
    into the assets directory itself, which fs-extra refuses to copy
    into its own subdirectory, has its catalog written and then leaves
    through [process.exit(-1)]. *)
Lemma asset_failure_counterexample :
  (catalog_steps (H:=Demo.host) Demo.into_assets
     (acquired (H:=Demo.host) Demo.with_assets)).1 = Ok ()
  ∧ (fsExtra_copy (Host:=Demo.host) ["proj"; "assets"]
       ["proj"; "assets"; "assets"]
       (released (H:=Demo.host) Demo.into_assets Demo.with_assets)).1
    = Throw "Cannot copy to a subdirectory of itself"
  ∧ (build (H:=Demo.host) Demo.into_assets Demo.with_assets).1 = Exited (-1)
  ∧ w_console (build (H:=Demo.host) Demo.into_assets Demo.with_assets).2
    = ["Building..."; "Failed to build runners";
       "Cannot copy to a subdirectory of itself"].
Proof. vm_compute. repeat split. Qed.

(** ** The name of a runner *)

(** C7, as the code has it.  [generateList] does not look at whether
    the metadata has a name.  For an artifact that loads and whose
    metadata has no [name], the task goes on to copy the artifact to
    [undefined.stt] and returns an entry with neither [name] nor
    [path]; it fails only if that copy fails. *)
Theorem nameless_runner_is_listed `{H : Host}
    (rd ord : path) (t : Z) (name : string) (w : world)
    (sttPackage : Module_) (runner : Runner) (env : jsval) :
  require_module (join rd name) (w_files w) = Ok sttPackage →
  emulate (module_Target sttPackage) = Ok runner →
  evaluateEnvironment runner = Ok env →
  obj_get (runner_info runner) "name" = JUndefined →
  listRunner rd ord t name w
  = (fs_update (copyFile (join rd name) (join ord "undefined.stt"));;
     mret (JObj (targetObject (runner_info runner) env t))) w
  ∧ obj_get (targetObject (runner_info runner) env t) "name" = JUndefined
  ∧ obj_get (targetObject (runner_info runner) env t) "path" = JUndefined.
Proof.
  intros Hreq Hemu Henv Hname.
  rewrite listRunner_unfold, Hreq, Hemu, Henv. cbv zeta.
  rewrite targetObject_path, targetObject_name, Hname.
  split; [|done].
  unfold mbind, M_bind, fs_update. cbn [to_string].
  change ("undefined" +:+ ".stt") with "undefined.stt".
  by destruct (copyFile _ _ _).
Qed.

Lemma nameless_runner_is_listed_witness :
  (listRunner (H:=Demo.host) (runnerDir (H:=Demo.host))
     ["proj"; "stt"; "runners"] 1700000000000 "u0.js"
     (generateList_names (H:=Demo.host) (runnerDir (H:=Demo.host))
        (outDir (H:=Demo.host) Demo.defaults)
        (bundled (H:=Demo.host) Demo.defaults Demo.nameless)).2).1
  = Ok (JObj [("version", JNum 1); ("path", JUndefined);
              ("environment", JStr "any");
              ("hash", JStr (entry_hash (H:=Demo.host) [("version", JNum 1)]
                               1700000000000))]).
Proof.
  destruct (nameless_runner_is_listed (H:=Demo.host)
              (runnerDir (H:=Demo.host)) ["proj"; "stt"; "runners"]
              1700000000000 "u0.js"
              (generateList_names (H:=Demo.host) (runnerDir (H:=Demo.host))
                 (outDir (H:=Demo.host) Demo.defaults)
                 (bundled (H:=Demo.host) Demo.defaults Demo.nameless)).2
              "class Target version=1" [("version", JNum 1)] (JStr "any"))
    as (Hrun & _ & _).
  - vm_compute. reflexivity.
  - vm_compute. reflexivity.
  - reflexivity.
  - reflexivity.
  - rewrite Hrun. vm_compute. reflexivity.
Defined.

(** C7 as the specification words it fails: a bundle whose metadata has
    no name does not stop its entry.  The build ends well, the artifact
    is copied to [runners/undefined.stt], and the catalog lists, after
    the two named runners, an entry without a name. *)
Lemma nameless_runner_counterexample :
  (build (H:=Demo.host) Demo.defaults Demo.nameless).1 = Returned
  ∧ w_files (build (H:=Demo.host) Demo.defaults Demo.nameless).2
      !! ["proj"; "stt"; "runners"; "undefined.stt"]
    = Some (File "class Target version=1")
  ∧ ∃ alpha beta,
      (generateList_tasks (H:=Demo.host) (runnerDir (H:=Demo.host))
         (outDir (H:=Demo.host) Demo.defaults)
         (bundled (H:=Demo.host) Demo.defaults Demo.nameless)).1
      = Ok (1700000000000,
            [alpha; beta;
             JObj [("version", JNum 1); ("path", JUndefined);
                   ("environment", JStr "any");
                   ("hash",
                    JStr (entry_hash (H:=Demo.host) [("version", JNum 1)]
                            1700000000000))]]).
Proof.
  split; [vm_compute; reflexivity|]. split; [vm_compute; reflexivity|].
  eexists _, _. vm_compute. reflexivity.
Qed.

(** ** Bundling only *)

Section BundleOnly.

Context `{H : Host}.

(** A run with [noList] set that ends well went through its three
    steps and left the [try] block through [return]. *)
Lemma build_Returned_noList (config : config) (w : world) :
  truthy (noList config) = true →
  (build config w).1 = Returned →
  build_acquire w = (Ok (), acquired w)
  ∧ clear_output config (acquired w) = (Ok (), cleared config w)
  ∧ bundle runnerDir (cleared config w) = (Ok (), bundled config w)
  ∧ build_try config (acquired w) = (Ok Return, bundled config w).
Proof.
  intros HnoList. unfold bundled, cleared, acquired, build.
  destruct (build_acquire w) as [[[]|e] w1]; [|done]. cbn [snd].
  unfold build_guarded, try_finally, try_catch.
  assert (∀ e w4, (build_catch e w4).1 = Ok (Normal, true)) as Hcatch
    by done.
  destruct (clear_output config w1) as [[[]|e] w2] eqn:Hclear; cbn [snd].
  - destruct (bundle runnerDir w2) as [[[]|e] w3] eqn:Hbundle; cbn [snd].
    + intros _. repeat split.
      unfold build_try. rewrite HnoList.
      by rewrite (bind_Ok _ _ _ _ _ Hclear), (bind_Ok _ _ _ _ _ Hbundle).
    + assert (build_try config w1 = (Throw e, w3)) as Htry.
      { unfold build_try.
        by rewrite (bind_Ok _ _ _ _ _ Hclear), (bind_Throw _ _ _ _ _ Hbundle). }
      rewrite (bind_Throw _ _ _ _ _ Htry).
      specialize (Hcatch e w3).
      destruct (build_catch e w3) as [r w4]. cbn [fst] in Hcatch. subst r.
      destruct (build_finally_spec w4) as (w5 & -> & _). done.
  - assert (build_try config w1 = (Throw e, w2)) as Htry.
    { unfold build_try. by rewrite (bind_Throw _ _ _ _ _ Hclear). }
    rewrite (bind_Throw _ _ _ _ _ Htry).
    specialize (Hcatch e w2).
    destruct (build_catch e w2) as [r w4]. cbn [fst] in Hcatch. subst r.
    destruct (build_finally_spec w4) as (w5 & -> & _). done.
Qed.

(** The [finally] block, when the scratch directory is there. *)
Lemma build_finally_present (w : world) :
  is_Some (w_files w !! tempDir) →
  build_finally w
  = (Ok (), with_files w (deleteFolderRecursive tempDir (w_files w))).
Proof.
  intros [n Hn].
  unfold build_finally, mbind, M_bind, fs_read, stat, fs_delete.
  by rewrite Hn.
Qed.

(** Once acquired, the scratch directory and the directories that
    lead to it are there. *)
Lemma build_acquire_prefixes (w : world) (q : path) :
  (build_acquire w).1 = Ok () →
  q `prefix_of` tempDir →
  w_files (acquired w) !! q = Some Dir.
Proof.
  unfold acquired, build_acquire, mbind, M_bind, console_log, fs_delete,
    fs_update.
  simpl. destruct (mkdir _ _) as [fs'|e] eqn:Hmk; [|done]. intros _ Hq. simpl.
  rewrite (mkdir_Ok_lookup _ _ _ q Hmk). by rewrite decide_True.
Qed.

(** Clearing an output directory that does not hold the scratch
    directory leaves the latter, and what leads to it, in place. *)
Lemma clear_output_keeps_scratch (config : config) (w1 w2 : world) (q : path) :
  clear_output config w1 = (Ok (), w2) →
  ¬ below (outDir config) tempDir →
  q `prefix_of` tempDir →
  w_files w1 !! q = Some Dir →
  w_files w2 !! q = Some Dir.
Proof.
  unfold clear_output, mbind, M_bind, fs_delete, fs_update. simpl.
  destruct (mkdir _ _) as [fs'|e] eqn:Hmk; [|done].
  intros [= <-] Hout Hq Hdir. simpl.
  rewrite (mkdir_Ok_lookup _ _ _ q Hmk). case_decide; [done|].
  rewrite delete_lookup_other; [done|].
  intros Hb. apply Hout. unfold below in *. by etrans.
Qed.

Lemma runnerDir_segment : runnerDir = tempDir ++ ["runners"].
Proof. reflexivity. Qed.

(** [bundle] hands its argument to the bundling engine as [outdir],
    and discovery only reads: what the engine leaves alone, [bundle]
    leaves alone. *)
Lemma bundle_frame (out : path) (w : world) :
  writes_below_outdir esbuild_build →
  (∀ q : path, q `prefix_of` out → q ≠ out → w_files w !! q = Some Dir) →
  ∀ q : path, ¬ below out q →
              w_files (bundle out w).2 !! q = w_files w !! q.
Proof.
  intros Hengine Hdirs q Hq. unfold bundle, mbind, M_bind.
  pose proof (findSourceEntryPoints_files w) as [Hfs _].
  destruct (findSourceEntryPoints w) as [[targetFiles|e] w1]; cbn [snd] in Hfs.
  - rewrite <-Hfs. apply Hengine; cbn [outdir]; [|done].
    intros q' Hq' Hne. rewrite Hfs. by apply Hdirs.
  - cbn [snd]. by rewrite Hfs.
Qed.

End BundleOnly.

(** C10.  A run with the bundling-only option that meets no error
    leaves the [try] block through [return], right after the bundler,
    and the [finally] block then deletes the scratch directory.  The
    bundling engine is told to write to the runner directory inside
    the scratch directory; as it writes nowhere but at and below the
    [outdir] it is given, the disk is in the end the cleared disk
    without the scratch directory: no bundled artifact is left
    anywhere, and nothing is below the output directory, neither
    manifest nor runners.  Stated for an output directory that does not
    hold the scratch directory. *)
Theorem bundling_only_leaves_nothing `{H : Host}
    (config : config) (w : world) :
  truthy (noList config) = true →
  (build config w).1 = Returned →
  writes_below_outdir esbuild_build →
  ¬ below (outDir config) tempDir →
  build_try config (acquired w) = (Ok Return, bundled config w)
  ∧ w_files (build config w).2
    = deleteFolderRecursive tempDir (w_files (cleared config w))
  ∧ (∀ q, below tempDir q → w_files (build config w).2 !! q = None)
  ∧ (∀ q, sbelow (outDir config) q → w_files (build config w).2 !! q = None).
Proof.
  intros HnoList Hret Hengine Hout.
  destruct (build_Returned_noList _ _ HnoList Hret)
    as (Hacq & Hclear & Hbundle & Htry).
  split; [exact Htry|].
  assert (∀ q : path, q `prefix_of` tempDir →
                      w_files (cleared config w) !! q = Some Dir) as Hdirs.
  { intros q Hq.
    apply (clear_output_keeps_scratch _ _ _ _ Hclear Hout Hq).
    apply build_acquire_prefixes; [by rewrite Hacq|done]. }
  assert (∀ q : path, ¬ below runnerDir q →
                      w_files (bundled config w) !! q
                      = w_files (cleared config w) !! q) as Hframe.
  { apply (bundle_frame _ _ Hengine). intros q Hq Hne. apply Hdirs.
    rewrite runnerDir_segment in Hq, Hne.
    by apply prefix_snoc_inv in Hq as [->|Hq]. }
  assert (∀ q : path, below runnerDir q → below tempDir q) as Hin.
  { intros q Hq. unfold below in *. etrans; [|exact Hq].
    rewrite runnerDir_segment. by apply prefix_app_r. }
  assert (is_Some (w_files (bundled config w) !! tempDir)) as Hscratch.
  { rewrite Hframe, Hdirs; [by eexists|done|].
    rewrite runnerDir_segment. intros Hb%prefix_length.
    rewrite length_app in Hb. simpl in Hb. lia. }
  assert (w_files (build config w).2
          = deleteFolderRecursive tempDir (w_files (cleared config w)))
    as Hfinal.
  { unfold build. rewrite Hacq.
    unfold build_guarded, try_finally, try_catch.
    rewrite (bind_Ok _ _ _ _ _ Htry). unfold mret, M_ret.
    rewrite (build_finally_present _ Hscratch). simpl.
    apply map_eq. intros q. rewrite !delete_lookup.
    case_decide as Hq; [done|]. apply Hframe. intros Hb. by apply Hq, Hin. }
  split; [exact Hfinal|]. rewrite Hfinal. split.
  - intros q Hq. by apply delete_lookup_below.
  - intros q Hq. rewrite delete_lookup. case_decide; [done|].
    by apply (clear_output_spec _ _ _ Hclear).
Qed.

(** The bundler of the small project keeps to its [outdir]. *)
Lemma bundle_all_frame (entries : list entry) (out : path) (w : world)
    (q : path) :
  ¬ below out q →
  w_files (Demo.bundle_all entries out w).2 !! q = w_files w !! q.
Proof.
  intros Hq. revert w. induction entries as [|e entries IH]; intros w; [done|].
  cbn [Demo.bundle_all]. unfold mbind, M_bind, fs_read, fs_update, writeFile.
  destruct (readFile (e_in e) (w_files w)) as [content|err]; [|done].
  destruct (includes content "syntax error"); [done|].
  destruct (put_file _ _ _) as [fs'|err] eqn:Hput; [|done].
  rewrite IH. cbn [w_files with_files].
  apply put_file_Ok in Hput as ->. apply lookup_insert_ne.
  intros <-. apply Hq. by apply prefix_app_r.
Qed.

Lemma run_esbuild_writes_below_outdir : writes_below_outdir Demo.run_esbuild.
Proof.
  intros options w Hdirs q Hq.
  unfold Demo.run_esbuild, mbind, M_bind, fs_update.
  destruct (mkdir (outdir options) (w_files w)) as [fs'|err] eqn:Hmk; [|done].
  rewrite bundle_all_frame by done. cbn [w_files with_files].
  rewrite (mkdir_Ok_lookup _ _ _ q Hmk). case_decide as Hpre; [|done].
  symmetry. apply Hdirs; [done|]. by intros ->.
Qed.

Lemma bundling_only_leaves_nothing_witness :
  w_files (build (H:=Demo.host) Demo.bundle_only Demo.good).2
  = deleteFolderRecursive (tempDir (H:=Demo.host))
      (w_files (cleared (H:=Demo.host) Demo.bundle_only Demo.good)).
Proof.
  apply (bundling_only_leaves_nothing (H:=Demo.host)
           Demo.bundle_only Demo.good).
  - reflexivity.
  - vm_compute. reflexivity.
  - exact run_esbuild_writes_below_outdir.
  - intros [k Hk]. vm_compute in Hk. discriminate Hk.
Defined.

(** ** What was in the output directory before the run *)

Section Rebuilt.

Context `{H : Host}.

(** Inside the project, nothing above the scratch directory is
    strictly below the output directory. *)
Lemma prefix_tempDir (config : config) (q : path) :
  below cwd (outDir config) →
  q `prefix_of` tempDir →
  q = tempDir ∨ ¬ sbelow (outDir config) q.
Proof.
  intros Hin Hq. unfold tempDir in *. rewrite join_segment in *.
  apply prefix_snoc_inv in Hq as [->|Hq]; [by left|]. right.
  intros Hs%sbelow_longer.
  apply prefix_length in Hin, Hq. lia.
Qed.

Lemma is_file_lookup (fs fs' : files) (q : path) :
  fs !! q = fs' !! q → is_file fs q = is_file fs' q.
Proof. unfold is_file. by intros ->. Qed.

(** The two disks are one and the same once the scratch workspace is
    acquired and the output directory cleared. *)
Lemma cleared_same (config : config) (w w' : world) :
  below cwd (outDir config) →
  same_except_below (outDir config) (w_files w) (w_files w') →
  w_ticks w = w_ticks w' →
  w_uuids w = w_uuids w' →
  w_console w = w_console w' →
  build_acquire w = (Ok (), acquired w) →
  clear_output config (acquired w) = (Ok (), cleared config w) →
  build_acquire w' = (Ok (), acquired w')
  ∧ clear_output config (acquired w') = (Ok (), cleared config w).
Proof.
  intros Hin Hsame Hticks Huuids Hconsole.
  unfold cleared, acquired, build_acquire, clear_output.
  unfold mbind, M_bind, console_log, fs_delete, fs_update. simpl.
  destruct (mkdir tempDir (deleteFolderRecursive tempDir (w_files w)))
    as [m|e] eqn:Hm; [|done]. simpl. intros _.
  destruct (mkdir (outDir config) (deleteFolderRecursive (outDir config) m))
    as [c|e] eqn:Hc; [|done]. simpl. intros _.
  assert (∃ m', mkdir tempDir (deleteFolderRecursive tempDir (w_files w'))
                = Ok m') as [m' Hm'].
  { apply mkdir_Ok_iff. intros q Hq.
    pose proof (proj1 (mkdir_Ok_iff _ _) (ex_intro _ m Hm) q Hq) as Hfile.
    destruct (prefix_tempDir config q Hin Hq) as [->|Hns].
    - unfold is_file. by rewrite delete_lookup_below.
    - rewrite <-Hfile. apply is_file_lookup.
      rewrite !delete_lookup. case_decide; [done|]. symmetry. by apply Hsame. }
  rewrite Hm'. simpl.
  assert (deleteFolderRecursive (outDir config) m'
          = deleteFolderRecursive (outDir config) m) as ->.
  { apply map_eq. intros q. rewrite !delete_lookup.
    case_decide as Hb; [done|].
    rewrite (mkdir_Ok_lookup _ _ _ q Hm), (mkdir_Ok_lookup _ _ _ q Hm').
    case_decide; [done|]. rewrite !delete_lookup. case_decide; [done|].
    symmetry. apply Hsame. intros [? _]. done. }
  rewrite Hc. simpl. rewrite Hticks, Huuids, Hconsole. done.
Qed.

(** A run is a function of the state in which the output directory
    has been cleared. *)
Lemma build_from_cleared (config : config) (w w' : world) :
  build_acquire w = (Ok (), acquired w) →
  clear_output config (acquired w) = (Ok (), cleared config w) →
  build_acquire w' = (Ok (), acquired w') →
  clear_output config (acquired w') = (Ok (), cleared config w) →
  build config w' = build config w.
Proof.
  intros Hacq Hclear Hacq' Hclear'.
  assert (build_try config (acquired w') = build_try config (acquired w))
    as Htry.
  { unfold build_try.
    by rewrite (bind_Ok _ _ _ _ _ Hclear), (bind_Ok _ _ _ _ _ Hclear'). }
  unfold build. rewrite Hacq, Hacq'.
  unfold build_guarded, try_finally, try_catch.
  by rewrite (bind_same _ _ _ _ _ Htry).
Qed.

(** A run that ends well got through clearing the output directory. *)
Lemma build_Returned_cleared (config : config) (w : world) :
  (build config w).1 = Returned →
  build_acquire w = (Ok (), acquired w)
  ∧ clear_output config (acquired w) = (Ok (), cleared config w).
Proof.
  unfold cleared, acquired, build.
  destruct (build_acquire w) as [[[]|e] w1]; [|done]. cbn [snd].
  unfold build_guarded, try_finally, try_catch.
  destruct (clear_output config w1) as [[[]|e] w2] eqn:Hclear; [done|].
  assert (build_try config w1 = (Throw e, w2)) as Htry.
  { unfold build_try. by rewrite (bind_Throw _ _ _ _ _ Hclear). }
  rewrite (bind_Throw _ _ _ _ _ Htry).
  assert ((build_catch e w2).1 = Ok (Normal, true)) as Hcatch by done.
  destruct (build_catch e w2) as [r w4]. cbn [fst] in Hcatch. subst r.
  destruct (build_finally_spec w4) as (w5 & -> & _). done.
Qed.

End Rebuilt.

(** C9.  In a run that ends well the output directory is deleted with
    all that is below it and created again before the bundler and the
    catalog step write anything: at that point it is an empty
    directory, and the rest of the run is a function of that state.  So
    nothing that was below the output directory before the run has any
    bearing on what the run leaves: two runs that start from disks which
    differ only below the output directory end in the same state. *)
Theorem output_directory_is_rebuilt `{H : Host}
    (config : config) (w w' : world) :
  below cwd (outDir config) →
  (build config w).1 = Returned →
  same_except_below (outDir config) (w_files w) (w_files w') →
  w_ticks w = w_ticks w' →
  w_uuids w = w_uuids w' →
  w_console w = w_console w' →
  w_files (cleared config w) !! outDir config = Some Dir
  ∧ (∀ q, sbelow (outDir config) q → w_files (cleared config w) !! q = None)
  ∧ build config w' = build config w.
Proof.
  intros Hin Hret Hsame Hticks Huuids Hconsole.
  destruct (build_Returned_cleared _ _ Hret) as [Hacq Hclear].
  destruct (clear_output_spec _ _ _ Hclear) as (Hdir & Hempty & _).
  split; [exact Hdir|]. split; [exact Hempty|].
  destruct (cleared_same config w w' Hin Hsame Hticks Huuids Hconsole
              Hacq Hclear) as [Hacq' Hclear'].
  by apply build_from_cleared.
Qed.

Lemma output_directory_is_rebuilt_witness :
  build (H:=Demo.host) Demo.defaults
    (Demo.fresh (<[Demo.stray := File "something else"]>
                   (w_files Demo.good)))
  = build (H:=Demo.host) Demo.defaults Demo.good.
Proof.
  apply (output_directory_is_rebuilt (H:=Demo.host)).
  - by exists ["stt"].
  - vm_compute. reflexivity.
  - intros q Hq. symmetry. apply lookup_insert_ne.
    intros <-. apply Hq. split; [by exists ["stray.txt"]|discriminate].
  - reflexivity.
  - reflexivity.
  - reflexivity.
Defined.

(** The scenario of the specification: a stray file seeded in the output
    directory is gone after a build that ends well, and the directory
    holds what this run wrote. *)
Example stray_file_is_gone :
  w_files Demo.good !! Demo.stray = Some (File "left over")
  ∧ (build (H:=Demo.host) Demo.defaults Demo.good).1 = Returned
  ∧ w_files (build (H:=Demo.host) Demo.defaults Demo.good).2 !! Demo.stray
    = None
  ∧ readdir ["proj"; "stt"]
      (w_files (build (H:=Demo.host) Demo.defaults Demo.good).2)
    = Ok ["runners"; "runners.json"; "index.html"].
Proof. vm_compute. repeat split. Qed.

(** * Further properties of [build.ts] *)

(** ** How a run ends *)

(** X1.  Once the scratch workspace is acquired, how a run ends
    follows how its [try] block ends.  When the block throws an error
    with message [e], the top-level handler logs its two lines right
    after what the block had logged, and the run leaves through
    [process.exit(-1)]; when the block completes, the run ends well.
    Either way the console keeps what the block had logged, and outside
    the scratch directory the disk is left as the block left it. *)
Theorem build_exit_follows_try `{H : Host} (config : config) (w : world) :
  (build_acquire w).1 = Ok () →
  match (build_try config (acquired w)).1 with
  | Throw e =>
      (build config w).1 = Exited (-1)
      ∧ (w_console (build_try config (acquired w)).2
         ++ ["Failed to build runners"; e])
        `prefix_of` w_console (build config w).2
  | Ok _ =>
      (build config w).1 = Returned
      ∧ w_console (build_try config (acquired w)).2
        `prefix_of` w_console (build config w).2
  end
  ∧ ∀ q, ¬ below tempDir q →
         w_files (build config w).2 !! q
         = w_files (build_try config (acquired w)).2 !! q.
Proof.
  intros Hacq%run_Ok. fold (acquired w) in Hacq.
  destruct (build_try config (acquired w)) as [[c|e] w2] eqn:Htry; cbn [fst snd].
  - destruct (build_try_Ok _ _ _ _ _ Hacq Htry) as (? & -> & ? & _). done.
  - destruct (build_try_Throw _ _ _ _ _ Hacq Htry) as (? & -> & _ & ?). done.
Qed.

Lemma build_exit_follows_try_witness :
  (build (H:=Demo.host) Demo.defaults Demo.broken_bundle).1 = Exited (-1).
Proof.
  destruct (build_exit_follows_try (H:=Demo.host)
              Demo.defaults Demo.broken_bundle) as [Hend _].
  - vm_compute. reflexivity.
  - assert ((build_try (H:=Demo.host) Demo.defaults
               (acquired (H:=Demo.host) Demo.broken_bundle)).1
            = Throw "Build failed with 1 error") as Htry
      by (vm_compute; reflexivity).
    rewrite Htry in Hend. apply Hend.
Defined.

(** X2.  When the statements ahead of the [try] block succeed, the
    scratch workspace is an empty directory whatever an earlier run
    left in it, every directory on the way to it exists, and nothing
    else on the disk has changed. *)
Theorem acquire_gives_fresh_workspace `{H : Host} (w : world) :
  (build_acquire w).1 = Ok () →
  (∀ q : path, q `prefix_of` tempDir → w_files (acquired w) !! q = Some Dir)
  ∧ (∀ q, sbelow tempDir q → w_files (acquired w) !! q = None)
  ∧ (∀ q, ¬ below tempDir q → ¬ q `prefix_of` tempDir →
          w_files (acquired w) !! q = w_files w !! q)
  ∧ w_console (acquired w) = w_console w ++ ["Building..."].
Proof.
  unfold acquired, build_acquire, mbind, M_bind, console_log, fs_delete,
    fs_update.
  simpl. destruct (mkdir _ _) as [fs'|e] eqn:Hmk; [|done]. intros _. simpl.
  repeat split.
  - intros q Hq. rewrite (mkdir_Ok_lookup _ _ _ q Hmk). by rewrite decide_True.
  - intros q [Hb Hne]. rewrite (mkdir_Ok_lookup _ _ _ q Hmk).
    rewrite decide_False.
    + by apply delete_lookup_below.
    + intros Hpre. apply Hne. by apply (anti_symm prefix).
  - intros q Hnb Hnp. rewrite (mkdir_Ok_lookup _ _ _ q Hmk).
    rewrite decide_False by done. by apply delete_lookup_other.
Qed.

Lemma acquire_gives_fresh_workspace_witness :
  w_files Demo.stale_scratch !! ["proj"; "__temp__"; "old.js"]
  = Some (File "stale")
  ∧ w_files (acquired (H:=Demo.host) Demo.stale_scratch)
      !! ["proj"; "__temp__"; "old.js"] = None.
Proof.
  split; [vm_compute; reflexivity|].
  destruct (acquire_gives_fresh_workspace (H:=Demo.host) Demo.stale_scratch)
    as (_ & Hempty & _).
  - vm_compute. reflexivity.
  - apply Hempty. split; [by exists ["old.js"]|discriminate].
Defined.

(** ** What discovery returns *)

Section DiscoveryIds.

Context `{H : Host}.

Lemma scanFile_uuid (f : path) (w : world) (o : option entry) (w' : world) :
  scanFile f w = (Ok o, w') →
  match o with
  | Some e => e = Entry f (uuid (w_uuids w)) ∧ w_uuids w' = S (w_uuids w)
  | None => w_uuids w' = w_uuids w
  end.
Proof.
  unfold scanFile, mbind, M_bind, fs_read, randomUUID.
  destruct (readFile f (w_files w)) as [text|e]; [|done].
  destruct (includes text MARKER); simpl; by intros [= <- <-].
Qed.

Lemma scan_all_uuids (names : list path) (w : world) pushed w' :
  promise_all (scanFile <$> names) w = (Ok pushed, w') →
  e_out <$> omap id pushed
  = uuid <$> seq (w_uuids w) (length (omap id pushed))
  ∧ w_uuids w' = (w_uuids w + length (omap id pushed))%nat.
Proof.
  revert w pushed w'.
  induction names as [|f names IH]; intros w pushed w'.
  - intros [= <- <-]. simpl. split; [done|lia].
  - rewrite fmap_cons. cbn [promise_all].
    destruct (scanFile f w) as [[o|e] w1] eqn:Hs; [|done].
    destruct (promise_all (scanFile <$> names) w1) as [[l|e] w2] eqn:Hrest;
      [|done].
    intros [= <- <-]. apply scanFile_uuid in Hs.
    destruct (IH _ _ _ Hrest) as [Hout Hn].
    destruct o as [e|]; cbn [omap list_omap id].
    + destruct Hs as [-> Hw1]. rewrite Hw1 in Hout, Hn.
      cbn [fmap list_fmap length seq e_out].
      split; [by rewrite <-Hout|lia].
    + rewrite Hs in Hout, Hn. done.
Qed.

Lemma findSourceEntryPoints_uuids (w : world) (entries : list entry) :
  (findSourceEntryPoints w).1 = Ok entries →
  e_out <$> entries = uuid <$> seq (w_uuids w) (length entries)
  ∧ w_uuids (findSourceEntryPoints w).2
    = (w_uuids w + length entries)%nat.
Proof.
  unfold findSourceEntryPoints, mbind, M_bind, fs_read.
  destruct (tsconfig_fileNames (w_files w)) as [names|e]; [|done].
  destruct (promise_all (scanFile <$> read_order names) w)
    as [[l|e] w1] eqn:Hall; [|done].
  cbn [fst snd mret M_ret]. intros [= <-]. by eapply scan_all_uuids.
Qed.

End DiscoveryIds.

(** X3.  Entry-point discovery only reads: whether it succeeds or
    fails, the disk and the console are as they were before. *)
Theorem discovery_reads_only `{H : Host} (w : world) :
  w_files (findSourceEntryPoints w).2 = w_files w
  ∧ w_console (findSourceEntryPoints w).2 = w_console w.
Proof. apply findSourceEntryPoints_files. Qed.

(** X4.  When discovery succeeds, [validFiles] holds the qualifying
    files in the order their reads completed: a rearrangement of the
    qualifying files of the listing, a file listed twice giving two
    entries.  The build identifiers are the next results of
    [crypto.randomUUID], drawn in that same order, one per entry and
    none for a file that does not qualify. *)
Theorem discovery_entries_as_reads_complete `{H : Host}
    (w : world) (entries : list entry) :
  (findSourceEntryPoints w).1 = Ok entries →
  ∃ fileNames,
    tsconfig_fileNames (w_files w) = Ok fileNames
    ∧ e_in <$> entries
      = filter (λ f, qualifies (w_files w) f) (read_order fileNames)
    ∧ e_in <$> entries ≡ₚ filter (λ f, qualifies (w_files w) f) fileNames
    ∧ e_out <$> entries = uuid <$> seq (w_uuids w) (length entries)
    ∧ w_uuids (findSourceEntryPoints w).2
      = (w_uuids w + length entries)%nat.
Proof.
  intros Hfind.
  destruct (findSourceEntryPoints_uuids _ _ Hfind) as [Hout Hn].
  apply run_Ok in Hfind.
  destruct (findSourceEntryPoints_Ok _ _ _ Hfind) as (fileNames & Hcfg & Hin).
  exists fileNames. split; [done|]. split; [done|]. split; [|done].
  rewrite Hin. by rewrite read_order_settles.
Qed.

Lemma discovery_entries_as_reads_complete_witness :
  e_out <$> [Entry ["proj"; "src"; "b.ts"] "u0";
             Entry ["proj"; "src"; "a.ts"] "u1"]
  = uuid (Host:=Demo.host) <$> seq 0 2.
Proof.
  destruct (discovery_entries_as_reads_complete (H:=Demo.host) Demo.good
              [Entry ["proj"; "src"; "b.ts"] "u0";
               Entry ["proj"; "src"; "a.ts"] "u1"])
    as (fileNames & _ & _ & _ & Hout & _).
  - vm_compute. reflexivity.
  - exact Hout.
Defined.

(** X5.  As long as [crypto.randomUUID] never repeats itself, no two
    entries of one discovery share a build identifier, so no two
    bundles are written to the same file of the scratch directory. *)
Theorem build_ids_are_distinct `{H : Host}
    (w : world) (entries : list entry) :
  Inj (=) (=) uuid →
  (findSourceEntryPoints w).1 = Ok entries →
  NoDup (e_out <$> entries).
Proof.
  intros Hinj Hfind.
  destruct (findSourceEntryPoints_uuids _ _ Hfind) as [-> _].
  apply NoDup_fmap_2; [done|]. apply NoDup_seq.
Qed.

Lemma build_ids_are_distinct_witness :
  NoDup (e_out <$> [Entry ["proj"; "src"; "b.ts"] "u0";
                    Entry ["proj"; "src"; "a.ts"] "u1"]).
Proof.
  apply (build_ids_are_distinct (H:=Demo.host) Demo.good).
  - intros m n Heq. simpl in Heq.
    apply (inj pretty).
    exact (String.app_inj "u" _ _ Heq).
  - vm_compute. reflexivity.
Defined.

(** ** The entries of the catalog *)

Section Entries.

Context `{H : Host}.

Lemma targetObject_environment (info : obj) (env : jsval) (t : Z) :
  obj_get (targetObject info env t) "environment" = env.
Proof.
  unfold targetObject. rewrite obj_get_set_ne by done. apply obj_get_set_eq.
Qed.

Lemma targetObject_other (info : obj) (env : jsval) (t : Z) (k : string) :
  k ≠ "path" → k ≠ "environment" → k ≠ "hash" →
  obj_get (targetObject info env t) k = obj_get info k.
Proof.
  intros Hp He Hh. unfold targetObject. by rewrite !obj_get_set_ne.
Qed.

Lemma copyFile_Ok (src dest : path) (fs fs' : files) :
  copyFile src dest fs = Ok fs' →
  ∃ content, fs !! src = Some (File content)
             ∧ fs' = <[dest := File content]> fs.
Proof.
  unfold copyFile. destruct (fs !! src) as [[content|]|]; [|done..].
  intros Hput%put_file_Ok. by exists content.
Qed.

End Entries.

(** X6.  A catalog entry is the runner's metadata with three fields
    set: [path] is the metadata's name, [environment] what the
    evaluator returned, and [hash] the integrity hash, taken over the
    metadata as the runner gave it.  Metadata fields of these three
    names are overridden; every other field is passed on unchanged. *)
Theorem entry_extends_metadata `{H : Host} (info : obj) (env : jsval) (t : Z) :
  obj_get (targetObject info env t) "path" = obj_get info "name"
  ∧ obj_get (targetObject info env t) "environment" = env
  ∧ obj_get (targetObject info env t) "hash"
    = JStr (sha256_hex (JSON_stringify (JObj info) +:+ pretty t))
  ∧ ∀ k, k ≠ "path" → k ≠ "environment" → k ≠ "hash" →
         obj_get (targetObject info env t) k = obj_get info k.
Proof.
  split; [apply targetObject_path|]. split; [apply targetObject_environment|].
  split; [apply targetObject_hash|]. apply targetObject_other.
Qed.

Lemma entry_extends_metadata_witness :
  obj_get
    (targetObject (H:=Demo.host)
       [("name", JStr "Alpha"); ("hash", JStr "own"); ("version", JNum 1)]
       (JStr "any") 1700000000000) "version"
  = JNum 1.
Proof.
  destruct (entry_extends_metadata (H:=Demo.host)
              [("name", JStr "Alpha"); ("hash", JStr "own");
               ("version", JNum 1)]
              (JStr "any") 1700000000000) as (_ & _ & _ & Hother).
  rewrite Hother; [reflexivity|discriminate..].
Defined.

(** X7.  From its [await] on, a callback of [generateList] only
    copies.  When it succeeds it returns the entry it had built, the
    file named after the entry's [path] in the output runners directory
    has the content of the artifact, and no other path of the disk has
    changed: the artifact is copied, not moved.  Nothing is written on
    the console. *)
Theorem artifact_is_copied `{H : Host}
    (rd ord : path) (name : string) (object : obj) (w : world) (r : jsval) :
  (finishRunner rd ord name (Some object) w).1 = Ok r →
  r = JObj object
  ∧ ∃ content,
      w_files w !! join rd name = Some (File content)
      ∧ w_files (finishRunner rd ord name (Some object) w).2
          !! join ord (to_string (obj_get object "path") +:+ ".stt")
        = Some (File content)
      ∧ (∀ q, q ≠ join ord (to_string (obj_get object "path") +:+ ".stt") →
              w_files (finishRunner rd ord name (Some object) w).2 !! q
              = w_files w !! q)
      ∧ w_console (finishRunner rd ord name (Some object) w).2
        = w_console w.
Proof.
  unfold finishRunner, mbind, M_bind, fs_update.
  destruct (copyFile _ _ _) as [fs'|e] eqn:Hcopy; [|done].
  cbn [fst snd]. intros [= <-]. split; [done|].
  apply copyFile_Ok in Hcopy as (content & Hsrc & ->).
  exists content. split; [done|]. cbn [w_files with_files].
  split; [apply lookup_insert_eq|]. split; [|done].
  intros q Hq. by apply lookup_insert_ne.
Qed.

Lemma artifact_is_copied_witness :
  ∃ content,
    w_files
      (generateList_names (H:=Demo.host) (runnerDir (H:=Demo.host))
         (outDir (H:=Demo.host) Demo.defaults)
         (bundled (H:=Demo.host) Demo.defaults Demo.good)).2
      !! ["proj"; "__temp__"; "runners"; "u1.js"] = Some (File content).
Proof.
  destruct (artifact_is_copied (H:=Demo.host)
              (runnerDir (H:=Demo.host)) ["proj"; "stt"; "runners"] "u1.js"
              (targetObject (H:=Demo.host)
                 [("name", JStr "Alpha"); ("version", JNum 1)]
                 (JStr "any") 1700000000000)
              (generateList_names (H:=Demo.host) (runnerDir (H:=Demo.host))
                 (outDir (H:=Demo.host) Demo.defaults)
                 (bundled (H:=Demo.host) Demo.defaults Demo.good)).2
              (JObj (targetObject (H:=Demo.host)
                       [("name", JStr "Alpha"); ("version", JNum 1)]
                       (JStr "any") 1700000000000)))
    as (_ & content & Hsrc & _).
  - vm_compute. reflexivity.
  - exists content. exact Hsrc.
Defined.

(** ** The list name and the manifest *)

Section Manifest.

Context `{H : Host}.

Lemma generateList_after_tasks (rd od : path) (w : world) :
  ¬ throws (generateList_tasks rd od w).1 →
  ∃ t runners,
    generateList_tasks rd od w
    = (Ok (t, runners), (generateList_tasks rd od w).2)
    ∧ generateList rd od w
      = generateList_manifest od runners (generateList_tasks rd od w).2.
Proof.
  intros Hok. rewrite generateList_split.
  destruct (generateList_tasks rd od w) as [[[t runners]|e] w1] eqn:Htasks;
    [|by destruct Hok].
  exists t, runners. split; [done|].
  by rewrite (bind_Ok _ _ _ _ _ Htasks).
Qed.

Lemma string_length_app (a b : string) :
  String.length (a +:+ b) = (String.length a + String.length b)%nat.
Proof.
  induction a as [|c a IH]; [done|].
  rewrite app_String. simpl. by rewrite IH.
Qed.

(** Appending the same text to two strings keeps them apart. *)
Lemma string_app_inv_tail (a b c : string) : a +:+ c = b +:+ c → a = b.
Proof.
  revert b. induction a as [|x a IH]; intros [|y b] Heq.
  - done.
  - apply (f_equal String.length) in Heq.
    rewrite !string_length_app in Heq. simpl in Heq. lia.
  - apply (f_equal String.length) in Heq.
    rewrite !string_length_app in Heq. simpl in Heq. lia.
  - rewrite !app_String in Heq. injection Heq as -> Heq.
    by rewrite (IH _ Heq).
Qed.

End Manifest.

(** X8.  The catalog step needs the project's [package.json].  With
    every artifact processed and copied, [generateList] still throws
    when the file is missing ([fs.stat] rejects) or holds [null] (the
    read of [pkgJSON.stt] is a [TypeError]); in both cases it stops
    there, in the state the tasks left, and writes no manifest. *)
Theorem catalog_needs_package_json `{H : Host} (rd od : path) (w : world) :
  ¬ throws (generateList_tasks rd od w).1 →
  (w_files (generateList_tasks rd od w).2 !! join cwd "package.json" = None →
   generateList rd od w
   = (Throw "ENOENT: no such file or directory, stat",
      (generateList_tasks rd od w).2))
  ∧ (is_Some (w_files (generateList_tasks rd od w).2
                !! join cwd "package.json") →
     require_json (join cwd "package.json")
       (w_files (generateList_tasks rd od w).2) = Ok JNull →
     generateList rd od w
     = (Throw "Cannot read properties of null (reading 'stt')",
        (generateList_tasks rd od w).2)).
Proof.
  intros Hok.
  destruct (generateList_after_tasks _ _ _ Hok) as (t & runners & _ & ->).
  unfold generateList_manifest, mbind, M_bind, fs_read, lift_result, stat.
  split.
  - by intros ->.
  - intros [n ->] ->. done.
Qed.

Lemma catalog_needs_package_json_witness :
  (build (H:=Demo.host) Demo.defaults Demo.no_package).1 = Exited (-1)
  ∧ (generateList (H:=Demo.host) (runnerDir (H:=Demo.host))
       (outDir (H:=Demo.host) Demo.defaults)
       (bundled (H:=Demo.host) Demo.defaults Demo.no_package)).1
    = Throw "ENOENT: no such file or directory, stat".
Proof.
  split; [vm_compute; reflexivity|].
  destruct (catalog_needs_package_json (H:=Demo.host)
              (runnerDir (H:=Demo.host))
              (outDir (H:=Demo.host) Demo.defaults)
              (bundled (H:=Demo.host) Demo.defaults Demo.no_package))
    as [Hmissing _].
  - vm_compute. intros [].
  - rewrite Hmissing; [reflexivity|]. vm_compute. reflexivity.
Defined.

(** X9.  The list name of the manifest is ["Runner List"] unless
    [package.json] declares a truthy [stt.listName], which is then
    taken as it is.  A [package.json] without an [stt] entry, or with
    an empty [listName], gives the default. *)
Theorem list_name_default_and_override `{H : Host}
    (od : path) (runners : list jsval) (w : world) (o : obj) :
  is_Some (w_files w !! join cwd "package.json") →
  require_json (join cwd "package.json") (w_files w) = Ok (JObj o) →
  (truthy (get_prop_opt (obj_get o "stt") "listName") = true →
   generateList_manifest od runners w
   = fs_update
       (writeFile (join od "runners.json")
          (JSON_stringify
             (JObj [("runners", JArr runners);
                    ("listName",
                     get_prop_opt (obj_get o "stt") "listName")]))) w)
  ∧ (truthy (get_prop_opt (obj_get o "stt") "listName") = false →
     generateList_manifest od runners w
     = fs_update
         (writeFile (join od "runners.json")
            (JSON_stringify
               (JObj [("runners", JArr runners);
                      ("listName", JStr "Runner List")]))) w)
  ∧ (obj_get o "stt" = JUndefined
     ∨ get_prop_opt (obj_get o "stt") "listName" = JStr "" →
     truthy (get_prop_opt (obj_get o "stt") "listName") = false).
Proof.
  intros [n Hstat] Hreq.
  assert (∀ listName,
            (if truthy (get_prop_opt (obj_get o "stt") "listName")
             then get_prop_opt (obj_get o "stt") "listName"
             else JStr "Runner List") = listName →
            generateList_manifest od runners w
            = fs_update
                (writeFile (join od "runners.json")
                   (JSON_stringify
                      (JObj [("runners", JArr runners);
                             ("listName", listName)]))) w) as Hwrite.
  { intros listName <-.
    unfold generateList_manifest, mbind, M_bind, fs_read, lift_result, stat.
    rewrite Hstat, Hreq. simpl. by destruct (fs_update _ w). }
  split; [|split].
  - intros Ht. apply Hwrite. by rewrite Ht.
  - intros Hf. apply Hwrite. by rewrite Hf.
  - intros [->| ->]; done.
Qed.

Lemma list_name_default_and_override_witness :
  (generateList_manifest (H:=Demo.host) ["proj"; "stt"] []
     (cleared (H:=Demo.host) Demo.defaults Demo.named_list)).1 = Ok ()
  ∧ w_files
      (generateList_manifest (H:=Demo.host) ["proj"; "stt"] []
         (cleared (H:=Demo.host) Demo.defaults Demo.named_list)).2
      !! ["proj"; "stt"; "runners.json"]
    = Some (File (Demo.json
                    (JObj [("runners", JArr []);
                           ("listName", JStr "My Runners")]))).
Proof.
  destruct (list_name_default_and_override (H:=Demo.host) ["proj"; "stt"] []
              (cleared (H:=Demo.host) Demo.defaults Demo.named_list)
              [("stt", JObj [("listName", JStr "My Runners")])])
    as (Hover & _ & _).
  - vm_compute. by eexists.
  - vm_compute. reflexivity.
  - rewrite Hover by reflexivity. split; vm_compute; reflexivity.
Defined.

(** X10.  [generateList] does not create the directory it reads the
    artifacts from.  When that directory is missing, as after a
    bundling step that wrote nothing, it throws on [readdir] with only
    the output runners directory created: no artifact is processed and
    no manifest written. *)
Theorem missing_runner_directory_fails `{H : Host} (rd od : path) (w : world) :
  (fs_update (mkdir (join od "runners")) w).1 = Ok () →
  w_files w !! rd = None →
  ¬ rd `prefix_of` join od "runners" →
  (generateList rd od w).1
  = Throw "ENOENT: no such file or directory, scandir"
  ∧ (∀ q : path, ¬ q `prefix_of` join od "runners" →
       w_files (generateList rd od w).2 !! q = w_files w !! q)
  ∧ w_console (generateList rd od w).2 = w_console w.
Proof.
  unfold generateList, mbind, M_bind, Date_now, fs_update, fs_read. simpl.
  destruct (mkdir (join od "runners") (w_files w)) as [fs1|e] eqn:Hmk; [|done].
  intros _ Hrd Hnp. simpl. unfold readdir.
  rewrite (mkdir_Ok_lookup _ _ _ rd Hmk), decide_False, Hrd by done.
  simpl. split; [done|]. split; [|done].
  intros q Hq. by rewrite (mkdir_Ok_lookup _ _ _ q Hmk), decide_False.
Qed.

Lemma missing_runner_directory_fails_witness :
  (generateList (H:=Demo.host) (runnerDir (H:=Demo.host))
     (outDir (H:=Demo.host) Demo.defaults)
     (cleared (H:=Demo.host) Demo.defaults Demo.good)).1
  = Throw "ENOENT: no such file or directory, scandir".
Proof.
  apply (missing_runner_directory_fails (H:=Demo.host)).
  - vm_compute. reflexivity.
  - vm_compute. reflexivity.
  - intros [k Hk]. vm_compute in Hk. discriminate Hk.
Defined.

(** X11.  At one epoch, two runners whose metadata serialise to
    different texts have different texts hashed, and so different
    hashes as far as the hash function tells different texts apart. *)
Theorem hash_differs_across_metadata `{H : Host} (info1 info2 : obj) (t : Z) :
  JSON_stringify (JObj info1) ≠ JSON_stringify (JObj info2) →
  JSON_stringify (JObj info1) +:+ pretty t
  ≠ JSON_stringify (JObj info2) +:+ pretty t
  ∧ (Inj (=) (=) sha256_hex → entry_hash info1 t ≠ entry_hash info2 t).
Proof.
  intros Hne.
  assert (JSON_stringify (JObj info1) +:+ pretty t
          ≠ JSON_stringify (JObj info2) +:+ pretty t) as Htext.
  { intros Heq. apply Hne. by eapply string_app_inv_tail. }
  split; [exact Htext|].
  intros Hinj Heq. apply Htext. by apply Hinj.
Qed.

Lemma hash_differs_across_metadata_witness :
  entry_hash (H:=Demo.host) [("name", JStr "Alpha")] 1700000000000
  ≠ entry_hash (H:=Demo.host) [("name", JStr "Beta")] 1700000000000.
Proof.
  refine (proj2 (hash_differs_across_metadata (H:=Demo.host)
                   [("name", JStr "Alpha")] [("name", JStr "Beta")]
                   1700000000000 _)
            (String.app_inj "sha256:")).
  vm_compute. discriminate.
Defined.

(** ** Bundling *)

Section Bundling.

Context `{H : Host}.

(** A file that does not qualify is read and nothing else happens. *)
Lemma scanFile_skip (f : path) (w : world) (text : string) :
  readFile f (w_files w) = Ok text →
  includes text MARKER = false →
  scanFile f w = (Ok None, w).
Proof.
  intros Hread Hno. unfold scanFile, mbind, M_bind, fs_read.
  by rewrite Hread, Hno.
Qed.

Lemma scan_all_skip (names : list path) (w : world) :
  (∀ f, f ∈ names →
        ∃ text, readFile f (w_files w) = Ok text
                ∧ includes text MARKER = false) →
  promise_all (scanFile <$> names) w = (Ok (replicate (length names) None), w).
Proof.
  induction names as [|f names IH]; intros Hall; [done|].
  rewrite fmap_cons. cbn [promise_all].
  destruct (Hall f) as (text & Hread & Hno); [by left|].
  rewrite (scanFile_skip _ _ _ Hread Hno), IH; [done|].
  intros f' Hf'. apply Hall. by right.
Qed.

Lemma omap_replicate_None {A} (n : nat) :
  omap id (replicate n (@None A)) = [].
Proof. induction n; [done|]. simpl. done. Qed.

End Bundling.

(** X12.  When discovery fails, [bundle] fails with it and has not
    touched the disk or the console: the error arises before anything
    of the bundling engine could have run. *)
Theorem bundle_fails_with_discovery `{H : Host} (outDir : path) (w : world) :
  throws (findSourceEntryPoints w).1 →
  ∃ e,
    (findSourceEntryPoints w).1 = Throw e
    ∧ bundle outDir w = (Throw e, (findSourceEntryPoints w).2)
    ∧ w_files (bundle outDir w).2 = w_files w
    ∧ w_console (bundle outDir w).2 = w_console w.
Proof.
  intros [e Hfind]%run_throws.
  assert (bundle outDir w = (Throw e, (findSourceEntryPoints w).2)) as Hb.
  { unfold bundle. by apply bind_Throw. }
  exists e. rewrite Hb. cbn [snd]. split; [by rewrite Hfind|].
  split; [done|]. apply findSourceEntryPoints_files.
Qed.

Lemma bundle_fails_with_discovery_witness :
  (bundle (H:=Demo.host) (runnerDir (H:=Demo.host)) Demo.bad_tsconfig).1
  = Throw "tsconfig.json: cannot parse".
Proof.
  destruct (bundle_fails_with_discovery (H:=Demo.host)
              (runnerDir (H:=Demo.host)) Demo.bad_tsconfig)
    as (e & Hfind & Hb & _).
  - vm_compute. exact I.
  - vm_compute in Hfind. injection Hfind as <-. by rewrite Hb.
Defined.

(** X13.  A project in which no listed file qualifies is no special
    case: discovery returns no entry and draws no identifier, and
    [bundle] still calls the bundling engine, with an empty list of
    entry points and in the very state it was called in. *)
Theorem bundle_without_entries `{H : Host}
    (outDir : path) (w : world) (fileNames : list path) :
  tsconfig_fileNames (w_files w) = Ok fileNames →
  (∀ f, f ∈ fileNames →
        ∃ text, readFile f (w_files w) = Ok text
                ∧ includes text MARKER = false) →
  findSourceEntryPoints w = (Ok [], w)
  ∧ bundle outDir w
    = esbuild_build {|
        entryPoints := [];
        mainFields := ["main"; "module"; "browser"];
        bundle_ := true;
        minify := true;
        outdir := outDir;
        external := EXCLUDED_MODULES;
        format := "iife";
        globalName := "_STTPackage";
        footer_js := FOOTER;
      |} w.
Proof.
  intros Hcfg Hnone.
  assert (findSourceEntryPoints w = (Ok [], w)) as Hfind.
  { unfold findSourceEntryPoints, mbind, M_bind, fs_read.
    rewrite Hcfg, (scan_all_skip (read_order fileNames) w).
    - unfold mret, M_ret. by rewrite omap_replicate_None.
    - intros f Hf. apply Hnone. by rewrite <-(read_order_settles fileNames). }
  split; [exact Hfind|].
  unfold bundle. by rewrite (bind_Ok _ _ _ _ _ Hfind).
Qed.

Lemma bundle_without_entries_witness :
  findSourceEntryPoints (H:=Demo.host)
    (Demo.fresh (Demo.disk [(["proj"], Dir);
                            (["proj"; "tsconfig.json"], File "{}");
                            (["proj"; "src"], Dir);
                            (["proj"; "src"; "util.ts"],
                             File "export const one = 1")]))
  = (Ok [],
     Demo.fresh (Demo.disk [(["proj"], Dir);
                            (["proj"; "tsconfig.json"], File "{}");
                            (["proj"; "src"], Dir);
                            (["proj"; "src"; "util.ts"],
                             File "export const one = 1")])).
Proof.
  apply (bundle_without_entries (H:=Demo.host) (runnerDir (H:=Demo.host)) _
           [["proj"; "src"; "util.ts"]]).
  - vm_compute. reflexivity.
  - intros f ->%list_elem_of_singleton.
    exists "export const one = 1". split; vm_compute; reflexivity.
Defined.
